(** * Blockchain forecasting pipeline builder

    A shallow embedding of
    [resources/sagemaker/pipeline-modelbuild-code/pipelines/blockchain/pipeline.py]:
    the module constants, [get_pipeline_custom_tags] and [get_pipeline].

    The builder only assembles configuration objects of the orchestration
    SDK.  Those objects are embedded as records holding the keyword
    arguments the source passes.  Everything the source obtains from
    outside (sessions, the parameter store, image lookups, the project
    registry, the job-graph constructors that go through a session) is
    answered by a [World]; every such call is written to a trace together
    with its outcome, and [print] writes to a model of standard output. *)

From Stdlib Require Import ZArith String Ascii List.
From stdpp Require Import gmap strings list pretty.
Import ListNotations.

Set Warnings "-register-all".

Local Open Scope string_scope.
Local Open Scope Z_scope.

(** ** Python exceptions *)

Inductive exn : Type :=
| KeyError (key : string)
| ValueError (msg : string)
| ClientError (msg : string).

(** [repr(s)] of a Python string.  A string of the model stands for the
    Python string with the same code points, all below 256.  The quotes
    are single unless the string holds a single and no double quote; the
    backslash and the quote in use are escaped with a backslash; tab,
    newline and carriage return are written [\t], [\n], [\r]; the other
    characters that are not printable (below 32, 127 to 160, and 173)
    are written [\xNN] in lower-case hexadecimal. *)
Definition double_quote : ascii := "034"%char.

Fixpoint contains_char (a : ascii) (s : string) : bool :=
  match s with
  | EmptyString => false
  | String c s' => Ascii.eqb c a || contains_char a s'
  end.

Definition hex_digit (n : N) : ascii :=
  match String.get (N.to_nat n) "0123456789abcdef" with
  | Some a => a
  | None => "0"%char
  end.

Definition escape_char (quote : ascii) (c : ascii) : string :=
  let code := N_of_ascii c in
  if Ascii.eqb c "\"%char then "\\"
  else if Ascii.eqb c quote then String "\"%char (String quote EmptyString)
  else if (code =? 9)%N then "\t"
  else if (code =? 10)%N then "\n"
  else if (code =? 13)%N then "\r"
  else if ((code <? 32) || ((127 <=? code) && (code <=? 160)) || (code =? 173))%N then
    "\x" ++ String (hex_digit (code / 16)%N) (String (hex_digit (code mod 16)%N) EmptyString)
  else String c EmptyString.

Fixpoint escape (quote : ascii) (s : string) : string :=
  match s with
  | EmptyString => EmptyString
  | String c s' => escape_char quote c ++ escape quote s'
  end.

Definition py_repr (s : string) : string :=
  let quote :=
    if contains_char "'"%char s && negb (contains_char double_quote s)
    then double_quote else "'"%char in
  String quote (escape quote s ++ String quote EmptyString).

(** [str(e)], as used by the f-strings of the [except] handlers; the
    text of a [KeyError] is the [repr] of its key. *)
Definition exn_str (e : exn) : string :=
  match e with
  | KeyError key => py_repr key
  | ValueError msg => msg
  | ClientError msg => msg
  end.

Inductive result (A : Type) : Type :=
| Ok (a : A)
| Raise (e : exn).
Arguments Ok {A} a.
Arguments Raise {A} e.

(** ** External calls and the run state *)

Inductive Call : Type :=
| boto3_Session (region_name : string)
| session_client (region_name : string) (service : string)
| boto3_client (service : string)
| sagemaker_Session (region_name : string) (default_bucket : option string)
| Session_default_bucket
| get_execution_role
| PipelineSession_new (region_name : string) (default_bucket : string)
| ssm_get_parameter (Name : string)
| ssm_get_parameters_by_path (Path : string)
| get_base_python_image_uri (region : string) (py_version : string)
| image_uris_retrieve (framework : string) (region : string) (version : string)
| sm_describe_project (ProjectName : option string)
| sm_list_tags (ResourceArn : string)
| sdk_call (method : string)
| Pipeline_new (name : string).

Record Event : Type := { ev_call : Call; ev_raised : option exn }.

Record Run : Type := { stdout : list string; trace : list Event }.

Definition M (A : Type) : Type := Run -> result A * Run.

Definition ret {A} (a : A) : M A := fun r => (Ok a, r).

Definition raise {A} (e : exn) : M A := fun r => (Raise e, r).

Definition bind {A B} (m : M A) (k : A -> M B) : M B :=
  fun r =>
    match m r with
    | (Ok a, r') => k a r'
    | (Raise e, r') => (Raise e, r')
    end.

Notation "x <- m ;; k" := (bind m (fun x => k))
  (at level 100, m at next level, right associativity).

Definition print (line : string) : M unit :=
  fun r => (Ok tt, {| stdout := (stdout r ++ [line])%list; trace := trace r |}).

Definition log_event (r : Run) (c : Call) (e : option exn) : Run :=
  {| stdout := stdout r; trace := (trace r ++ [{| ev_call := c; ev_raised := e |}])%list |}.

(** ** Python helpers *)

(** [s.split(sep)] for a one-character separator: never empty. *)
Fixpoint split (sep : ascii) (s : string) : list string :=
  match s with
  | EmptyString => [EmptyString]
  | String a s' =>
      if Ascii.eqb a sep then EmptyString :: split sep s'
      else match split sep s' with
           | h :: t => String a h :: t
           | [] => [String a EmptyString]
           end
  end.

(** [xs[-1]] on the result of [split]. *)
Definition last_item (xs : list string) : string := List.last xs EmptyString.

(** [d[key]]: raises [KeyError] when the key is absent. *)
Definition getitem {V} (d : gmap string V) (key : string) : M V :=
  match d !! key with
  | Some v => ret v
  | None => raise (KeyError key)
  end.

(** [os.path.join(a, b)] for a relative [b]. *)
Definition ends_with_slash (a : string) : bool :=
  match last_item (split "/"%char a) with
  | EmptyString => true
  | _ => false
  end.

Definition os_path_join (a b : string) : string :=
  match a with
  | EmptyString => b
  | _ => if ends_with_slash a then a ++ b else a ++ "/" ++ b
  end.

(** ** The outside world *)

(** One entry of [response["Parameters"]] of the parameter store. *)
Record SsmParameter : Type := { Name : string; Value : string }.

(** One entry of [response["Tags"]] of the project registry. *)
Record Tag : Type := { Key : string; TagValue : string }.

(** [raises] says which external calls fail and with what; the other
    fields are the values the calls return when they do not fail. *)
Record World : Type := {
  raises : Call -> option exn;
  default_bucket_value : option string -> string;
  execution_role_value : string;
  ssm_parameter_value : string -> string;
  ssm_parameters : string -> list SsmParameter;
  base_python_image_uri : string -> string -> string;
  image_uri : string -> string -> string -> string;
  project_arn : option string -> string;
  resource_tags : string -> list Tag;
  BASE_DIR : string
}.

(** An external call: recorded in the trace with its outcome. *)
Definition call {A} (w : World) (c : Call) (v : A) : M A :=
  fun r =>
    match raises w c with
    | Some e => (Raise e, log_event r c (Some e))
    | None => (Ok v, log_event r c None)
    end.

(** ** Blocks that mutate a local variable

    The body of a [try] updates a local object in place; when it raises,
    the updates made so far stay.  A block returns the final value of the
    local together with the exception that ended it, if any. *)

Definition Block (S : Type) : Type := S -> Run -> (S * option exn) * Run.

Definition skip {S} : Block S := fun s r => ((s, None), r).

Definition update {S} (f : S -> S) : Block S := fun s r => ((f s, None), r).

Definition eval {S A} (m : M A) (k : A -> Block S) : Block S :=
  fun s r =>
    match m r with
    | (Ok a, r') => k a s r'
    | (Raise e, r') => ((s, Some e), r')
    end.

Definition seq {S} (b1 b2 : Block S) : Block S :=
  fun s r =>
    match b1 s r with
    | ((s', None), r') => b2 s' r'
    | ((s', Some e), r') => ((s', Some e), r')
    end.

Fixpoint for_in {S A} (xs : list A) (body : A -> Block S) : Block S :=
  match xs with
  | [] => skip
  | x :: xs' => seq (body x) (for_in xs' body)
  end.

(** [try: body / except Exception as e: handler e], started with the
    local at [s]; gives the local as the statements after it see it. *)
Definition try_except {S} (body : Block S) (handler : exn -> M unit) (s : S) : M S :=
  fun r =>
    match body s r with
    | ((s', None), r') => (Ok s', r')
    | ((s', Some e), r') =>
        match handler e r' with
        | (Ok _, r'') => (Ok s', r'')
        | (Raise e', r'') => (Raise e', r'')
        end
    end.

(** ** Sessions and clients *)

Record BotoSession : Type := { region_name : string }.

Record Client : Type := { client_region : option string; client_service : string }.

Record Session : Type := {
  s_boto_session : BotoSession;
  s_sagemaker_client : Client;
  s_sagemaker_runtime_client : Client;
  s_default_bucket : option string
}.

Record PipelineSession : Type := {
  ps_boto_session : BotoSession;
  ps_sagemaker_client : Client;
  ps_default_bucket : string
}.

Section Sessions.
Variable w : World.

Definition new_boto_session (region : string) : M BotoSession :=
  call w (boto3_Session region) {| region_name := region |}.

Definition client (boto_session : BotoSession) (service : string) : M Client :=
  call w (session_client (region_name boto_session) service)
    {| client_region := Some (region_name boto_session); client_service := service |}.

Definition get_sagemaker_client (region : string) : M Client :=
  boto_session <- new_boto_session region;;
  sagemaker_client <- client boto_session "sagemaker";;
  ret sagemaker_client.

Definition get_session (region : string) (default_bucket : option string) : M Session :=
  boto_session <- new_boto_session region;;
  sagemaker_client <- client boto_session "sagemaker";;
  runtime_client <- client boto_session "sagemaker-runtime";;
  call w (sagemaker_Session region default_bucket)
    {| s_boto_session := boto_session;
       s_sagemaker_client := sagemaker_client;
       s_sagemaker_runtime_client := runtime_client;
       s_default_bucket := default_bucket |}.

Definition get_pipeline_session (region : string) (default_bucket : string)
  : M PipelineSession :=
  boto_session <- new_boto_session region;;
  sagemaker_client <- client boto_session "sagemaker";;
  call w (PipelineSession_new region default_bucket)
    {| ps_boto_session := boto_session;
       ps_sagemaker_client := sagemaker_client;
       ps_default_bucket := default_bucket |}.

(** [get_pipeline_custom_tags]: the local of the [try] is the caller's
    list [new_tags], appended to in place. *)
Definition get_pipeline_custom_tags (new_tags : list Tag) (region : string)
    (sagemaker_project_name : option string) : M (list Tag) :=
  try_except
    (eval (get_sagemaker_client region) (fun sm_client =>
     eval (call w (sm_describe_project sagemaker_project_name)
             (project_arn w sagemaker_project_name)) (fun sagemaker_project_arn =>
     eval (call w (sm_list_tags sagemaker_project_arn)
             (resource_tags w sagemaker_project_arn)) (fun project_tags =>
     for_in project_tags (fun project_tag =>
       update (fun new_tags => (new_tags ++ [project_tag])%list))))))
    (fun e => print ("Error getting project tags: " ++ exn_str e))
    new_tags.

End Sessions.

(** ** Constants of the module *)

Definition PROCESSING_FOLDER_PREFIX : string := "/opt/ml/processing".
Definition LOCAL_DATA_DIR : string := PROCESSING_FOLDER_PREFIX ++ "/data".
Definition LOCAL_MODEL_DIR : string := PROCESSING_FOLDER_PREFIX ++ "/model".
Definition LOCAL_TEST_DIR : string := LOCAL_DATA_DIR ++ "/test".
Definition LOCAL_TRANSFORM_DIR : string := LOCAL_DATA_DIR ++ "/transform".
Definition LOCAL_EVALUATION_DIR : string := LOCAL_DATA_DIR ++ "/evaluation".
Definition PROCESSING_STEP_NAME : string := "PreprocessData".
Definition PROCESSING_JOB_NAME : string := "PreprocessingJob".
Definition TRAINING_JOB_NAME : string := "TrainingJob".
Definition TRAINING_STEP_NAME : string := "TrainModel".
Definition CREATE_MODEL_STEP_NAME : string := "CreateModel".
Definition TRANSFORM_STEP_NAME : string := "Transform".
Definition TRANSFORM_JOB_NAME : string := "TransformOutputsProcessingJob".
Definition PROCESSING_TRANSFORM_STEP_NAME : string := "ProcessingTransformOutputs".
Definition MODEL_QUALITY_CHECK_STEP_NAME : string := "QualityCheck".
Definition EVALUATION_JOB_NAME : string := "EvaluationJob".
Definition EVALUATION_REPORT_NAME : string := "EvaluationReport".
Definition EVALUATION_STEP_NAME : string := "EvaluateModel".
Definition REGISTER_MODEL_STEP_NAME : string := "RegisterModel".
Definition CONDITON_STEP_NAME : string := "CheckMQLCondition".
Definition FAIL_STEP_NAME : string := "Fail".
Definition BASE_INSTANCE_TYPE : string := "ml.m5.large".
Definition PROCESSING_INSTANCE_TYPE : string := "ml.t3.medium".
Definition TRAINING_INSTANCE_TYPE : string := "ml.c5.2xlarge".
Definition CREATE_MODEL_INSTANCE_TYPE : string := BASE_INSTANCE_TYPE.
Definition TRANSFORM_INSTANCE_TYPE : string := BASE_INSTANCE_TYPE.
Definition CHECK_INSTANCE_TYPE : string := BASE_INSTANCE_TYPE.
Definition INFERENCE_INSTANCES_TYPE : list string := ["ml.t2.medium"; BASE_INSTANCE_TYPE].
Definition ACCELERATOR_TYPE : string := "ml.eia1.medium".

(** ** [json.dumps] on the literals the module serialises *)

Inductive json : Type :=
| JInt (n : Z)
| JString (s : string)
| JList (items : list json)
| JDict (items : list (string * json)).

Definition dquote : string := String "034"%char EmptyString.

Definition join_with (sep : string) (xs : list string) : string :=
  match xs with
  | [] => EmptyString
  | x :: xs' => fold_left (fun acc y => acc ++ sep ++ y) xs' x
  end.

(** Default separators; the strings serialised here need no escaping. *)
Fixpoint json_dumps (j : json) : string :=
  match j with
  | JInt n => pretty n
  | JString s => dquote ++ s ++ dquote
  | JList items => "[" ++ join_with ", " (List.map json_dumps items) ++ "]"
  | JDict items =>
      "{" ++ join_with ", "
               (List.map (fun kv => dquote ++ fst kv ++ dquote ++ ": " ++ json_dumps (snd kv))
                  items) ++ "}"
  end.

(** ** Objects of the orchestration SDK *)

Inductive WorkflowParameter : Type :=
| ParameterInteger (name : string) (default_value : Z)
| ParameterString (name : string) (default_value : string)
| ParameterBoolean (name : string) (default_value : bool).

Definition parameter_name (p : WorkflowParameter) : string :=
  match p with
  | ParameterInteger name _ => name
  | ParameterString name _ => name
  | ParameterBoolean name _ => name
  end.

Record PropertyFile : Type := {
  pf_name : string; pf_output_name : string; pf_path : string
}.

(** A value handed to the SDK: a plain string, a parameter placeholder,
    a property reference [step.properties.path], an execution variable,
    or a [Join] / [JsonGet] function over such values. *)
Inductive PipelineVar : Type :=
| Str (s : string)
| Param (p : WorkflowParameter)
| Property (step_name : string) (path : string)
| ExecutionVariable (name : string)
| Join (on : string) (values : list PipelineVar)
| JsonGet (step_name : string) (property_file : PropertyFile) (json_path : string).

Record ProcessingOutput : Type := { po_output_name : string; po_source : string }.

Record ProcessingInput : Type := { pi_source : PipelineVar; pi_destination : string }.

Record ScriptProcessor : Type := {
  sp_image_uri : string;
  sp_command : list string;
  sp_instance_type : string;
  sp_instance_count : Z;
  sp_base_job_name : string;
  sp_sagemaker_session : PipelineSession;
  sp_role : string
}.

Record ProcessingArgs : Type := {
  pa_processor : ScriptProcessor;
  pa_inputs : list ProcessingInput;
  pa_outputs : list ProcessingOutput;
  pa_code : string;
  pa_arguments : list string
}.

Record Estimator : Type := {
  e_image_uri : string;
  e_sagemaker_session : PipelineSession;
  e_role : string;
  e_instance_count : Z;
  e_instance_type : string;
  e_base_job_name : string;
  e_use_spot_instances : bool;
  e_max_run : Z;
  e_max_wait : Z;
  e_output_path : string;
  e_hyperparameters : gmap string string
}.

Record TrainingInput : Type := { ti_s3_data : PipelineVar; ti_content_type : string }.

Record TrainingArgs : Type := {
  ta_estimator : Estimator;
  ta_inputs : list (string * TrainingInput)
}.

Record Model : Type := {
  m_image_uri : string;
  m_model_data : PipelineVar;
  m_sagemaker_session : PipelineSession;
  m_role : string
}.

Record MetricsSource : Type := { ms_s3_uri : PipelineVar; ms_content_type : string }.

Record ModelMetrics : Type := {
  mm_model_statistics : MetricsSource;
  mm_model_constraints : MetricsSource
}.

Record DriftCheckBaselines : Type := {
  dcb_model_statistics : MetricsSource;
  dcb_model_constraints : MetricsSource
}.

Inductive ModelArgs : Type :=
| ModelCreate (model : Model) (instance_type : string) (accelerator_type : string)
| ModelRegister (model : Model)
    (content_types response_types inference_instances transform_instances : list string)
    (model_package_group_name : string) (approval_status : PipelineVar)
    (model_metrics : ModelMetrics) (drift_check_baselines : DriftCheckBaselines).

Record Transformer : Type := {
  t_model_name : PipelineVar;
  t_instance_type : string;
  t_instance_count : Z;
  t_accept : string;
  t_strategy : string;
  t_assemble_with : string;
  t_output_path : string;
  t_sagemaker_session : PipelineSession;
  t_env : list (string * string)
}.

Record TransformInput : Type := { tin_data : PipelineVar }.

Record TransformArgs : Type := {
  tr_transformer : Transformer;
  tr_data : PipelineVar;
  tr_content_type : string;
  tr_split_type : string
}.

Record CheckJobConfig : Type := {
  cj_role : string;
  cj_instance_count : Z;
  cj_instance_type : string;
  cj_volume_size_in_gb : Z;
  cj_sagemaker_session : PipelineSession
}.

Inductive DatasetFormat : Type :=
| DatasetFormat_csv (header : bool).

Record ModelQualityCheckConfig : Type := {
  qc_baseline_dataset : PipelineVar;
  qc_dataset_format : DatasetFormat;
  qc_output_s3_uri : PipelineVar;
  qc_problem_type : string;
  qc_inference_attribute : string;
  qc_ground_truth_attribute : string
}.

(** [ExecutionVariables.PIPELINE_EXECUTION_ID] *)
Definition PIPELINE_EXECUTION_ID : PipelineVar := ExecutionVariable "PipelineExecutionId".

(** The [ValueError] of [float(s)]: its text ends in [repr(s)]. *)
Definition float_error (s : string) : exn :=
  ValueError ("could not convert string to float: " ++ py_repr s).

(** ** The job graph and its builder

    Python's [float] is kept abstract: [float_of_string] is [float(s)]
    ([None] where it raises [ValueError]) and [string_of_float] is the
    formatting of a float inside an f-string. *)

Section Builder.
Variable float : Type.
Variable float_of_string : string -> option float.
Variable string_of_float : float -> string.

Definition py_float (s : string) : M float :=
  match float_of_string s with
  | Some x => ret x
  | None => raise (float_error s)
  end.

Inductive Condition : Type :=
| ConditionLessThanOrEqualTo (left : PipelineVar) (right : float).

Inductive Step : Type :=
| ProcessingStep (name : string) (step_args : ProcessingArgs)
    (property_files : list PropertyFile) (depends_on : list string)
| TrainingStep (name : string) (step_args : TrainingArgs) (depends_on : list string)
| ModelStep (name : string) (step_args : ModelArgs)
| TransformStep (name : string) (step_args : TransformArgs)
| QualityCheckStep (name : string) (skip_check register_new_baseline : PipelineVar)
    (quality_check_config : ModelQualityCheckConfig) (check_job_config : CheckJobConfig)
    (supplied_baseline_statistics supplied_baseline_constraints : PipelineVar)
    (model_package_group_name : string)
| ConditionStep (name : string) (conditions : list Condition)
    (if_steps else_steps : list Step).

Record Pipeline : Type := {
  p_name : string;
  p_parameters : list PipelineVar;
  p_steps : list Step;
  p_sagemaker_session : PipelineSession
}.

Definition step_name (s : Step) : string :=
  match s with
  | ProcessingStep name _ _ _ => name
  | TrainingStep name _ _ => name
  | ModelStep name _ => name
  | TransformStep name _ => name
  | QualityCheckStep name _ _ _ _ _ _ _ => name
  | ConditionStep name _ _ _ => name
  end.

(** [step.properties.<path>] *)
Definition properties (s : Step) (path : string) : PipelineVar :=
  Property (step_name s) path.

(** [properties.ProcessingOutputConfig.Outputs[name].S3Output.S3Uri] *)
Definition output_s3_uri (s : Step) (output_name : string) : PipelineVar :=
  properties s ("ProcessingOutputConfig.Outputs['" ++ output_name ++ "'].S3Output.S3Uri").

(** A dict literal: later items win. *)
Definition dict {V} (items : list (string * V)) : gmap string V :=
  fold_left (fun d kv => <[fst kv := snd kv]> d) items ∅.

(** [estimator.set_hyperparameters] applied to keyword arguments *)
Definition set_hyperparameters (est : Estimator) (kwargs : gmap string string) : Estimator :=
  {| e_image_uri := e_image_uri est;
     e_sagemaker_session := e_sagemaker_session est;
     e_role := e_role est;
     e_instance_count := e_instance_count est;
     e_instance_type := e_instance_type est;
     e_base_job_name := e_base_job_name est;
     e_use_spot_instances := e_use_spot_instances est;
     e_max_run := e_max_run est;
     e_max_wait := e_max_wait est;
     e_output_path := e_output_path est;
     e_hyperparameters := kwargs ∪ e_hyperparameters est |}.

Variable w : World.

Definition TARGET_PATH : string := "/rdi-mlops/sagemaker/model-build/target".
Definition HYPERPARAMETERS_PATH : string :=
  "/rdi-mlops/sagemaker/model-build/training-hyperparameters".
Definition THRESHOLD_PATH : string := "/rdi-mlops/sagemaker/model-build/validation-threshold".
Definition FEATURE_GROUP_NAME : string :=
  "/rdi-mlops/stack-parameters/sagemaker-feature-group-name".

(** [ssm_client.get_parameters_by_path(Path=..)["Parameters"]] *)
Definition get_parameters_by_path (ssm_client : Client) (path : string)
  : M (list SsmParameter) :=
  call w (ssm_get_parameters_by_path path) (ssm_parameters w path).

(** The three guarded reads of [get_pipeline]; the local of each [try]
    is the mapping initialised to the empty dict just before it. *)
Definition read_model_target_parameters (ssm_client : Client) : M (gmap string string) :=
  try_except
    (eval (get_parameters_by_path ssm_client TARGET_PATH) (fun response =>
     for_in response (fun param =>
       update (fun d => <[last_item (split "/"%char (Name param)) := Value param]> d))))
    (fun e => print ("An error occurred reading the model target parameters: " ++ exn_str e))
    ∅.

Definition read_model_training_hyperparameters (ssm_client : Client)
  : M (gmap string string) :=
  try_except
    (eval (get_parameters_by_path ssm_client HYPERPARAMETERS_PATH) (fun response =>
     for_in response (fun param =>
       update (fun d => <[last_item (split "/"%char (Name param)) := Value param]> d))))
    (fun e =>
       print ("An error occurred reading the model training hyperparameters: " ++ exn_str e))
    ∅.

Definition read_model_validation_thresholds (ssm_client : Client) : M (gmap string float) :=
  try_except
    (eval (get_parameters_by_path ssm_client THRESHOLD_PATH) (fun response =>
     for_in response (fun param =>
       eval (py_float (Value param)) (fun x =>
       update (fun d => <[last_item (split "/"%char (Name param)) := x]> d)))))
    (fun e =>
       print ("An error occurred reading the model validation thresholds: " ++ exn_str e))
    ∅.

Definition deepar_environment_param : json :=
  JDict [("num_samples", JInt 100);
         ("output_types", JList [JString "quantiles"; JString "mean"]);
         ("quantiles", JList [JString "0.1"; JString "0.5"; JString "0.9"])].

Definition get_pipeline (region : string) (role : option string)
    (default_bucket : option string)
    (sagemaker_project_name sagemaker_project_id : option string)
    (model_package_group_name : string) : M Pipeline :=
  let sagemaker_project_name :=
    match sagemaker_project_name with
    | None => "blockchain-forecasting"
    | Some given => given
    end in
  let sagemaker_project_id :=
    match sagemaker_project_id with
    | None => "mlops-pipeline"
    | Some given => given
    end in
  let base_job_prefix := sagemaker_project_name ++ "-" ++ sagemaker_project_id in
  let execution_prefix := PIPELINE_EXECUTION_ID in
  sagemaker_session <- get_session w region default_bucket;;
  default_bucket <- call w Session_default_bucket (default_bucket_value w default_bucket);;
  role <- match role with
          | None => call w get_execution_role (execution_role_value w)
          | Some given => ret given
          end;;
  pipeline_session <- get_pipeline_session w region default_bucket;;
  (* parameters for pipeline execution *)
  let processing_instance_count := ParameterInteger "ProcessingInstanceCount" 1 in
  let model_approval_status :=
    ParameterString "ModelApprovalStatus" "PendingManualApproval" in
  let skip_check_model_quality := ParameterBoolean "SkipModelQualityCheck" false in
  let register_new_baseline_model_quality :=
    ParameterBoolean "RegisterNewModelQualityBaseline" false in
  let supplied_baseline_statistics_model_quality :=
    ParameterString "ModelQualitySuppliedStatistics" EmptyString in
  let supplied_baseline_constraints_model_quality :=
    ParameterString "ModelQualitySuppliedConstraints" EmptyString in
  (* configuration reads *)
  ssm_client <- call w (boto3_client "ssm")
                  {| client_region := None; client_service := "ssm" |};;
  feature_group_name <- call w (ssm_get_parameter FEATURE_GROUP_NAME)
                          (ssm_parameter_value w FEATURE_GROUP_NAME);;
  model_target_parameters <- read_model_target_parameters ssm_client;;
  model_training_hyperparameters <- read_model_training_hyperparameters ssm_client;;
  model_validation_thresholds <- read_model_validation_thresholds ssm_client;;
  (* Step 1: Data Preprocessing *)
  processing_image_uri <- call w (get_base_python_image_uri region "310")
                            (base_python_image_uri w region "310");;
  let data_preprocessor :=
    {| sp_image_uri := processing_image_uri;
       sp_command := ["python3"];
       sp_instance_type := PROCESSING_INSTANCE_TYPE;
       sp_instance_count := 1;
       sp_base_job_name := PROCESSING_JOB_NAME;
       sp_sagemaker_session := pipeline_session;
       sp_role := role |} in
  arg_freq <- getitem model_target_parameters "freq";;
  arg_target_col <- getitem model_target_parameters "target_col";;
  arg_prediction_length <- getitem model_target_parameters "prediction_length";;
  preprocessing_step_args <-
    call w (sdk_call "ScriptProcessor.run")
      {| pa_processor := data_preprocessor;
         pa_inputs := [];
         pa_outputs :=
           [ {| po_output_name := "train"; po_source := LOCAL_DATA_DIR ++ "/train" |};
             {| po_output_name := "validation"; po_source := LOCAL_DATA_DIR ++ "/validation" |};
             {| po_output_name := "test"; po_source := LOCAL_DATA_DIR ++ "/test" |} ];
         pa_code := os_path_join (BASE_DIR w) "preprocess.py";
         pa_arguments :=
           [ "--region"; region;
             "--feature-group-name"; feature_group_name;
             "--artifacts-bucket"; default_bucket;
             "--base-job-prefix"; base_job_prefix;
             "--freq"; arg_freq;
             "--target-col"; arg_target_col;
             "--prediction-length"; arg_prediction_length ] |};;
  let step_preprocessing :=
    ProcessingStep PROCESSING_STEP_NAME preprocessing_step_args [] [] in
  (* Step 2: Model Training *)
  let model_path :=
    "s3://" ++ default_bucket ++ "/" ++ base_job_prefix ++ "/model_training/output" in
  deepar_image_uri <- call w (image_uris_retrieve "forecasting-deepar" region "1")
                        (image_uri w "forecasting-deepar" region "1");;
  let deepar_estimator :=
    {| e_image_uri := deepar_image_uri;
       e_sagemaker_session := pipeline_session;
       e_role := role;
       e_instance_count := 1;
       e_instance_type := TRAINING_INSTANCE_TYPE;
       e_base_job_name := TRAINING_JOB_NAME;
       e_use_spot_instances := true;
       e_max_run := 60 * 60 - 1;
       e_max_wait := 60 * 60;
       e_output_path := model_path;
       e_hyperparameters := ∅ |} in
  h_time_freq <- getitem model_target_parameters "freq";;
  h_epochs <- getitem model_training_hyperparameters "epochs";;
  h_early_stopping_patience <-
    getitem model_training_hyperparameters "early_stopping_patience";;
  h_mini_batch_size <- getitem model_training_hyperparameters "mini_batch_size";;
  h_learning_rate <- getitem model_training_hyperparameters "learning_rate";;
  h_context_length <- getitem model_target_parameters "prediction_length";;
  h_prediction_length <- getitem model_target_parameters "prediction_length";;
  let hyperparameters :=
    dict [ ("time_freq", h_time_freq);
           ("epochs", h_epochs);
           ("early_stopping_patience", h_early_stopping_patience);
           ("mini_batch_size", h_mini_batch_size);
           ("learning_rate", h_learning_rate);
           ("context_length", h_context_length);
           ("prediction_length", h_prediction_length);
           ("likelihood", "negative-binomial") ] in
  let deepar_estimator := set_hyperparameters deepar_estimator hyperparameters in
  preprocessing_step_args <-
    call w (sdk_call "Estimator.fit")
      {| ta_estimator := deepar_estimator;
         ta_inputs :=
           [ ("train", {| ti_s3_data := output_s3_uri step_preprocessing "train";
                          ti_content_type := "json" |});
             ("test", {| ti_s3_data := output_s3_uri step_preprocessing "validation";
                         ti_content_type := "json" |}) ] |};;
  let step_train :=
    TrainingStep TRAINING_STEP_NAME preprocessing_step_args [PROCESSING_STEP_NAME] in
  (* Step 3: Create the Model *)
  let model :=
    {| m_image_uri := deepar_image_uri;
       m_model_data := properties step_train "ModelArtifacts.S3ModelArtifacts";
       m_sagemaker_session := pipeline_session;
       m_role := role |} in
  preprocessing_step_args <-
    call w (sdk_call "Model.create")
      (ModelCreate model CREATE_MODEL_INSTANCE_TYPE ACCELERATOR_TYPE);;
  let step_create_model := ModelStep CREATE_MODEL_STEP_NAME preprocessing_step_args in
  (* Step 4: Batch Transform *)
  let transform_output_path :=
    "s3://" ++ default_bucket ++ "/" ++ base_job_prefix ++ "/batch_transform/output" in
  let transformer :=
    {| t_model_name := properties step_create_model "ModelName";
       t_instance_type := TRANSFORM_INSTANCE_TYPE;
       t_instance_count := 1;
       t_accept := "application/jsonlines";
       t_strategy := "SingleRecord";
       t_assemble_with := "Line";
       t_output_path := transform_output_path;
       t_sagemaker_session := pipeline_session;
       t_env := [("DEEPAR_INFERENCE_CONFIG", json_dumps deepar_environment_param)] |} in
  let transform_inputs :=
    {| tin_data := Join "/" [output_s3_uri step_preprocessing "test";
                             Str "test-inputs.json"] |} in
  preprocessing_step_args <-
    call w (sdk_call "Transformer.transform")
      {| tr_transformer := transformer;
         tr_data := tin_data transform_inputs;
         tr_content_type := "application/jsonlines";
         tr_split_type := "Line" |};;
  let step_transform := TransformStep TRANSFORM_STEP_NAME preprocessing_step_args in
  (* Step 5: Evaluate the results of the Batch transform *)
  let evaluate_processor :=
    {| sp_image_uri := processing_image_uri;
       sp_command := ["python3"];
       sp_instance_type := PROCESSING_INSTANCE_TYPE;
       sp_instance_count := 1;
       sp_base_job_name := EVALUATION_JOB_NAME;
       sp_sagemaker_session := pipeline_session;
       sp_role := role |} in
  eval_target_col <- getitem model_target_parameters "target_col";;
  eval_step_args <-
    call w (sdk_call "ScriptProcessor.run")
      {| pa_processor := evaluate_processor;
         pa_inputs :=
           [ {| pi_source := output_s3_uri step_preprocessing "test";
                pi_destination := LOCAL_TEST_DIR |};
             {| pi_source := properties step_transform "TransformOutput.S3OutputPath";
                pi_destination := LOCAL_TRANSFORM_DIR |} ];
         pa_outputs :=
           [ {| po_output_name := "evaluation"; po_source := LOCAL_EVALUATION_DIR |} ];
         pa_code := os_path_join (BASE_DIR w) "evaluate.py";
         pa_arguments := ["--target-col"; eval_target_col] |};;
  let evaluation_report :=
    {| pf_name := EVALUATION_REPORT_NAME;
       pf_output_name := "evaluation";
       pf_path := "evaluation.json" |} in
  let step_eval :=
    ProcessingStep EVALUATION_STEP_NAME eval_step_args [evaluation_report]
      [TRANSFORM_STEP_NAME] in
  (* Step 6: Check the Model Quality *)
  let check_job_config :=
    {| cj_role := role;
       cj_instance_count := 1;
       cj_instance_type := CHECK_INSTANCE_TYPE;
       cj_volume_size_in_gb := 120;
       cj_sagemaker_session := pipeline_session |} in
  let model_quality_check_config :=
    {| qc_baseline_dataset :=
         Join "/" [output_s3_uri step_eval "evaluation"; Str "targets-quantiles.csv"];
       qc_dataset_format := DatasetFormat_csv true;
       qc_output_s3_uri :=
         Join "/" [Str "s3:/"; Str default_bucket; Str base_job_prefix;
                   execution_prefix; Str "modelqualitycheck"];
       qc_problem_type := "Regression";
       qc_inference_attribute := "quantile5";
       qc_ground_truth_attribute := "target" |} in
  let model_quality_check_step :=
    QualityCheckStep MODEL_QUALITY_CHECK_STEP_NAME
      (Param skip_check_model_quality)
      (Param register_new_baseline_model_quality)
      model_quality_check_config
      check_job_config
      (Param supplied_baseline_statistics_model_quality)
      (Param supplied_baseline_constraints_model_quality)
      model_package_group_name in
  let model_metrics :=
    {| mm_model_statistics :=
         {| ms_s3_uri := properties model_quality_check_step "CalculatedBaselineStatistics";
            ms_content_type := "application/json" |};
       mm_model_constraints :=
         {| ms_s3_uri := properties model_quality_check_step "CalculatedBaselineConstraints";
            ms_content_type := "application/json" |} |} in
  let drift_check_baselines :=
    {| dcb_model_statistics :=
         {| ms_s3_uri :=
              properties model_quality_check_step "BaselineUsedForDriftCheckStatistics";
            ms_content_type := "application/json" |};
       dcb_model_constraints :=
         {| ms_s3_uri :=
              properties model_quality_check_step "BaselineUsedForDriftCheckConstraints";
            ms_content_type := "application/json" |} |} in
  (* Register the model *)
  register_step_args <-
    call w (sdk_call "Model.register")
      (ModelRegister model ["application/json"] ["application/json"]
         INFERENCE_INSTANCES_TYPE [TRANSFORM_INSTANCE_TYPE]
         model_package_group_name (Param model_approval_status)
         model_metrics drift_check_baselines);;
  let step_register := ModelStep REGISTER_MODEL_STEP_NAME register_step_args in
  (* condition step for evaluating model quality and branching execution *)
  printed_threshold <- getitem model_validation_thresholds "mean_quantile_loss";;
  _ <- print ("model validation threshold used is : mean_quantile_loss <= "
              ++ string_of_float printed_threshold);;
  threshold <- getitem model_validation_thresholds "mean_quantile_loss";;
  let cond_lte :=
    ConditionLessThanOrEqualTo
      (JsonGet (step_name step_eval) evaluation_report
         "deepar_metrics.mean_quantile_loss.value")
      threshold in
  let step_cond := ConditionStep CONDITON_STEP_NAME [cond_lte] [step_register] [] in
  (* pipeline instance *)
  call w (Pipeline_new base_job_prefix)
    {| p_name := base_job_prefix;
       p_parameters :=
         [ Str PROCESSING_INSTANCE_TYPE;
           Param processing_instance_count;
           Str TRAINING_INSTANCE_TYPE;
           Param model_approval_status;
           Str feature_group_name;
           Param skip_check_model_quality;
           Param register_new_baseline_model_quality;
           Param supplied_baseline_statistics_model_quality;
           Param supplied_baseline_constraints_model_quality ];
       p_steps :=
         [ step_preprocessing;
           step_train;
           step_create_model;
           step_transform;
           step_eval;
           model_quality_check_step;
           step_cond ];
       p_sagemaker_session := pipeline_session |}.

End Builder.

Arguments ConditionLessThanOrEqualTo {float} left right.
Arguments ProcessingStep {float} name step_args property_files depends_on.
Arguments TrainingStep {float} name step_args depends_on.
Arguments ModelStep {float} name step_args.
Arguments TransformStep {float} name step_args.
Arguments QualityCheckStep {float} name skip_check register_new_baseline
  quality_check_config check_job_config supplied_baseline_statistics
  supplied_baseline_constraints model_package_group_name.
Arguments ConditionStep {float} name conditions if_steps else_steps.
Arguments p_name {float} p.
Arguments p_parameters {float} p.
Arguments p_steps {float} p.
Arguments p_sagemaker_session {float} p.
Arguments step_name {float} s.
Arguments properties {float} s path.
Arguments output_s3_uri {float} s output_name.
Arguments py_float {float} float_of_string s.
Arguments read_model_validation_thresholds {float} float_of_string w ssm_client.
Arguments get_pipeline {float} float_of_string string_of_float w region role
  default_bucket sagemaker_project_name sagemaker_project_id model_package_group_name.

(** ** Reading the job graph *)

Section Graph.
Context {float : Type}.

(** Steps named by a value: the step of a property reference or of a
    [JsonGet]. *)
Fixpoint var_refs (v : PipelineVar) : list string :=
  match v with
  | Str _ => []
  | Param _ => []
  | Property step _ => [step]
  | ExecutionVariable _ => []
  | Join _ values => flat_map var_refs values
  | JsonGet step _ _ => [step]
  end.

Inductive Reference : Type :=
| RefParameter (name : string)
| RefProperty (step : string) (path : string)
| RefExecutionVariable (name : string)
| RefJsonGet (step : string) (property_file : string) (json_path : string).

(** The references a value makes, plain strings left out. *)
Fixpoint var_wiring (v : PipelineVar) : list Reference :=
  match v with
  | Str _ => []
  | Param p => [RefParameter (parameter_name p)]
  | Property step path => [RefProperty step path]
  | ExecutionVariable name => [RefExecutionVariable name]
  | Join _ values => flat_map var_wiring values
  | JsonGet step file json_path => [RefJsonGet step (pf_name file) json_path]
  end.

Definition condition_left (c : Condition float) : PipelineVar :=
  match c with
  | ConditionLessThanOrEqualTo lhs _ => lhs
  end.

Definition condition_right (c : Condition float) : float :=
  match c with
  | ConditionLessThanOrEqualTo _ rhs => rhs
  end.

Definition model_vars (m : Model) : list PipelineVar := [m_model_data m].

(** Every field of a step that can hold a pipeline value. *)
Definition step_vars (s : Step float) : list PipelineVar :=
  match s with
  | ProcessingStep _ args _ _ => List.map pi_source (pa_inputs args)
  | TrainingStep _ args _ => List.map (fun kv => ti_s3_data (snd kv)) (ta_inputs args)
  | ModelStep _ (ModelCreate model _ _) => model_vars model
  | ModelStep _ (ModelRegister model _ _ _ _ _ approval_status metrics baselines) =>
      (model_vars model ++
       [ approval_status;
         ms_s3_uri (mm_model_statistics metrics);
         ms_s3_uri (mm_model_constraints metrics);
         ms_s3_uri (dcb_model_statistics baselines);
         ms_s3_uri (dcb_model_constraints baselines) ])%list
  | TransformStep _ args => [t_model_name (tr_transformer args); tr_data args]
  | QualityCheckStep _ skip_check register_new_baseline config _ statistics constraints _ =>
      [ skip_check; register_new_baseline;
        qc_baseline_dataset config; qc_output_s3_uri config;
        statistics; constraints ]
  | ConditionStep _ conditions _ _ => List.map condition_left conditions
  end.

Definition step_depends_on (s : Step float) : list string :=
  match s with
  | ProcessingStep _ _ _ depends_on => depends_on
  | TrainingStep _ _ depends_on => depends_on
  | _ => []
  end.

(** Every step a step refers to, the steps nested in its branches
    included. *)
Fixpoint step_refs (s : Step float) : list string :=
  (step_depends_on s ++ flat_map var_refs (step_vars s) ++
   match s with
   | ConditionStep _ _ if_steps else_steps =>
       flat_map step_refs if_steps ++ flat_map step_refs else_steps
   | _ => []
   end)%list.

Definition mem (x : string) (xs : list string) : bool := existsb (String.eqb x) xs.

(** Each step of the list refers only to steps that come before it
    ([defined] are the names already seen). *)
Fixpoint refs_defined (defined : list string) (steps : list (Step float)) : bool :=
  match steps with
  | [] => true
  | s :: rest =>
      forallb (fun n => mem n defined) (step_refs s)
      && refs_defined (defined ++ [step_name s])%list rest
  end.

(** Name, dependencies and references of a step, followed by those of
    the steps nested in it. *)
Fixpoint step_wiring (s : Step float)
  : list (string * list string * list Reference) :=
  ((step_name s, step_depends_on s, flat_map var_wiring (step_vars s)) ::
   match s with
   | ConditionStep _ _ if_steps else_steps =>
       flat_map step_wiring if_steps ++ flat_map step_wiring else_steps
   | _ => []
   end)%list.

Definition pipeline_wiring (p : Pipeline float)
  : list (string * list string * list Reference) :=
  flat_map step_wiring (p_steps p).

Definition step_names (p : Pipeline float) : list string :=
  List.map fst (List.map fst (pipeline_wiring p)).

(** The estimators of the training steps of a list of steps. *)
Fixpoint training_jobs_of (s : Step float) : list Estimator :=
  match s with
  | TrainingStep _ args _ => [ta_estimator args]
  | ConditionStep _ _ if_steps else_steps =>
      (flat_map training_jobs_of if_steps ++ flat_map training_jobs_of else_steps)%list
  | _ => []
  end.

Definition training_jobs (p : Pipeline float) : list Estimator :=
  flat_map training_jobs_of (p_steps p).

Definition is_placeholder (v : PipelineVar) : bool :=
  match v with
  | Param _ => true
  | _ => false
  end.

Definition is_plain_string (v : PipelineVar) : bool :=
  match v with
  | Str _ => true
  | _ => false
  end.

End Graph.

(** ** What the guarded reads compute *)

Definition parameter_key (param : SsmParameter) : string :=
  last_item (split "/"%char (Name param)).

(** The mapping filled from a response whose values are kept as strings. *)
Definition string_mapping (response : list SsmParameter) : gmap string string :=
  fold_left (fun d param => <[parameter_key param := Value param]> d) response ∅.

(** The mapping filled from a response whose values go through [float]:
    the first value that does not parse ends the loop. *)
Fixpoint float_mapping {float} (float_of_string : string -> option float)
    (response : list SsmParameter) (d : gmap string float)
  : gmap string float * option exn :=
  match response with
  | [] => (d, None)
  | param :: rest =>
      match float_of_string (Value param) with
      | Some x => float_mapping float_of_string rest (<[parameter_key param := x]> d)
      | None => (d, Some (float_error (Value param)))
      end
  end.

(** The run after a guarded read: the call is traced, and a failure adds
    one line to standard output. *)
Definition after_read (path : string) (message : string) (failure : option exn) (r : Run)
  : Run :=
  match failure with
  | None => log_event r (ssm_get_parameters_by_path path) None
  | Some e =>
      {| stdout := (stdout r ++ [(message ++ exn_str e)%string])%list;
         trace := (trace r ++ [{| ev_call := ssm_get_parameters_by_path path;
                                  ev_raised := Some e |}])%list |}
  end.

(** What the guarded read of the validation thresholds leaves behind:
    the mapping, and the run. *)
Definition validation_thresholds {float} (float_of_string : string -> option float)
    (w : World) : gmap string float :=
  match raises w (ssm_get_parameters_by_path THRESHOLD_PATH) with
  | Some _ => ∅
  | None => fst (float_mapping float_of_string (ssm_parameters w THRESHOLD_PATH) ∅)
  end.

Definition thresholds_failure {float} (float_of_string : string -> option float)
    (w : World) : option exn :=
  match raises w (ssm_get_parameters_by_path THRESHOLD_PATH) with
  | Some e => Some e
  | None => snd (float_mapping float_of_string (ssm_parameters w THRESHOLD_PATH) ∅)
  end.

Definition after_validation_thresholds {float} (float_of_string : string -> option float)
    (w : World) (r : Run) : Run :=
  {| stdout :=
       match thresholds_failure float_of_string w with
       | Some e =>
           (stdout r ++
            [("An error occurred reading the model validation thresholds: "
              ++ exn_str e)%string])%list
       | None => stdout r
       end;
     trace :=
       (trace r ++
        [{| ev_call := ssm_get_parameters_by_path THRESHOLD_PATH;
            ev_raised := raises w (ssm_get_parameters_by_path THRESHOLD_PATH) |}])%list |}.

(** An empty run: nothing printed, no external call made. *)
Definition run0 : Run := {| stdout := []; trace := [] |}.

(** The calls whose failure [get_pipeline] handles itself. *)
Definition is_guarded_read (c : Call) : bool :=
  match c with
  | ssm_get_parameters_by_path _ => true
  | _ => false
  end.

Definition is_parameter_store_read (c : Call) : bool :=
  match c with
  | ssm_get_parameter _ => true
  | ssm_get_parameters_by_path _ => true
  | _ => false
  end.

Definition is_tag_lookup (c : Call) : bool :=
  match c with
  | sm_describe_project _ => true
  | sm_list_tags _ => true
  | _ => false
  end.

(** A computation only appends to the trace, and whenever one of the
    calls it made outside a [try] raised, it ends with that exception. *)
Definition propagating {A} (m : M A) : Prop :=
  forall r, exists events,
    trace (snd (m r)) = (trace r ++ events)%list
    /\ forall ev e,
         In ev events ->
         is_guarded_read (ev_call ev) = false ->
         ev_raised ev = Some e ->
         fst (m r) = Raise e.

(** The events one run of a computation adds to the trace. *)
Definition events_of {A} (m : M A) (r : Run) : list Event :=
  drop (length (trace r)) (trace (snd (m r))).

(** Two worlds whose parameter store answers alike; they may differ in
    everything else (sessions, roles, buckets, image lookups). *)
Definition same_configuration (w1 w2 : World) : Prop :=
  (forall c, is_parameter_store_read c = true -> raises w1 c = raises w2 c)
  /\ (forall name, ssm_parameter_value w1 name = ssm_parameter_value w2 name)
  /\ (forall path, ssm_parameters w1 path = ssm_parameters w2 path).


(** ** Example worlds *)

#[global] Instance exn_eq_dec : EqDecision exn.
Proof. solve_decision. Defined.

#[global] Instance Call_eq_dec : EqDecision Call.
Proof. solve_decision. Defined.

(** A stand-in for [float] on the examples: a literal made of digits and
    dots is kept as it is written, anything else does not parse. *)
Definition is_decimal_char (a : ascii) : bool :=
  (Ascii.eqb a "."%char
   || ((48 <=? N.of_nat (nat_of_ascii a)) && (N.of_nat (nat_of_ascii a) <=? 57))%N)%bool.

Fixpoint all_chars (f : ascii -> bool) (s : string) : bool :=
  match s with
  | EmptyString => true
  | String a s' => f a && all_chars f s'
  end.

Definition decimal_of_string (s : string) : option string :=
  match s with
  | EmptyString => None
  | _ => if all_chars is_decimal_char s then Some s else None
  end.

Definition string_of_decimal (x : string) : string := x.

Definition example_parameters (path : string) : list SsmParameter :=
  if String.eqb path TARGET_PATH then
    [ {| Name := TARGET_PATH ++ "/freq"; Value := "1H" |};
      {| Name := TARGET_PATH ++ "/target_col"; Value := "fee" |};
      {| Name := TARGET_PATH ++ "/prediction_length"; Value := "24" |} ]
  else if String.eqb path HYPERPARAMETERS_PATH then
    [ {| Name := HYPERPARAMETERS_PATH ++ "/epochs"; Value := "100" |};
      {| Name := HYPERPARAMETERS_PATH ++ "/early_stopping_patience"; Value := "10" |};
      {| Name := HYPERPARAMETERS_PATH ++ "/mini_batch_size"; Value := "128" |};
      {| Name := HYPERPARAMETERS_PATH ++ "/learning_rate"; Value := "0.001" |} ]
  else if String.eqb path THRESHOLD_PATH then
    [ {| Name := THRESHOLD_PATH ++ "/mean_quantile_loss"; Value := "0.5" |} ]
  else [].

(** A world whose external calls fail as [failing] says. *)
Definition example_world (failing : Call -> option exn) : World :=
  {| raises := failing;
     default_bucket_value := fun given => default "sagemaker-eu-west-1-000000000000" given;
     execution_role_value := "arn:aws:iam::000000000000:role/pipeline";
     ssm_parameter_value := fun _ => "blockchain-feature-group";
     ssm_parameters := example_parameters;
     base_python_image_uri := fun region version => region ++ "/python:" ++ version;
     image_uri := fun framework region version => region ++ "/" ++ framework ++ ":" ++ version;
     project_arn := fun _ => "arn:aws:sagemaker:eu-west-1:000000000000:project/forecast";
     resource_tags := fun _ => [ {| Key := "sagemaker:project-name"; TagValue := "forecast" |} ];
     BASE_DIR := "/opt/pipelines/blockchain" |}.

Definition no_failure : Call -> option exn := fun _ => None.

Definition only (c : Call) (e : exn) : Call -> option exn :=
  fun c' => if decide (c' = c) then Some e else None.

Definition throttled : exn := ClientError "ThrottlingException".

Definition example_get_pipeline (failing : Call -> option exn) (role : option string)
    (sagemaker_project_name sagemaker_project_id : option string)
  : result (Pipeline string) * Run :=
  get_pipeline decimal_of_string string_of_decimal (example_world failing)
    "eu-west-1" role None sagemaker_project_name sagemaker_project_id "Blockchain" run0.

(** Every read of the parameter store fails. *)
Definition no_parameter_store : Call -> option exn :=
  fun c => if is_parameter_store_read c then Some throttled else None.

(** A world with the parameter store of [example_world] and other
    sessions, roles, buckets and images. *)
Definition other_world : World :=
  {| raises := no_failure;
     default_bucket_value := fun given => default "sagemaker-us-east-1-111111111111" given;
     execution_role_value := "arn:aws:iam::111111111111:role/other";
     ssm_parameter_value := fun _ => "blockchain-feature-group";
     ssm_parameters := example_parameters;
     base_python_image_uri := fun region version => "registry/" ++ region ++ "/py" ++ version;
     image_uri := fun framework region version => "registry/" ++ framework;
     project_arn := fun _ => "arn:aws:sagemaker:us-east-1:111111111111:project/other";
     resource_tags := fun _ => [];
     BASE_DIR := "/srv/pipelines/blockchain/" |}.

Definition example_tags : list Tag := [ {| Key := "team"; TagValue := "forecasting" |} ].

(** ** The calls of a sequence, up to the first that fails *)

(** The events of a list of external calls made one after the other, none
    of them guarded: the first failure ends the list. *)
Fixpoint until_first_failure (w : World) (calls : list Call) : list Event :=
  match calls with
  | [] => []
  | c :: rest =>
      match raises w c with
      | Some e => [{| ev_call := c; ev_raised := Some e |}]
      | None => {| ev_call := c; ev_raised := None |} :: until_first_failure w rest
      end
  end.

Fixpoint first_failure (w : World) (calls : list Call) : option exn :=
  match calls with
  | [] => None
  | c :: rest =>
      match raises w c with
      | Some e => Some e
      | None => first_failure w rest
      end
  end.

(** The external calls of [get_session], [get_pipeline_session] and
    [get_sagemaker_client], in the order of the source. *)
Definition session_calls (region : string) (default_bucket : option string) : list Call :=
  [ boto3_Session region;
    session_client region "sagemaker";
    session_client region "sagemaker-runtime";
    sagemaker_Session region default_bucket ].

Definition pipeline_session_calls (region : string) (default_bucket : string) : list Call :=
  [ boto3_Session region;
    session_client region "sagemaker";
    PipelineSession_new region default_bucket ].

Definition sagemaker_client_calls (region : string) : list Call :=
  [ boto3_Session region; session_client region "sagemaker" ].

(** The external calls [get_pipeline] makes before it reads the three
    mappings, in the order of the source. *)
Definition calls_before_reads (w : World) (region : string)
    (role default_bucket : option string) : list Call :=
  (session_calls region default_bucket ++
   [Session_default_bucket] ++
   match role with
   | None => [get_execution_role]
   | Some _ => []
   end ++
   pipeline_session_calls region (default_bucket_value w default_bucket) ++
   [ boto3_client "ssm"; ssm_get_parameter FEATURE_GROUP_NAME ])%list.

(** The external calls that assemble the jobs, in the order of the
    source. *)
Definition job_calls (region : string) : list Call :=
  [ get_base_python_image_uri region "310";
    sdk_call "ScriptProcessor.run";
    image_uris_retrieve "forecasting-deepar" region "1";
    sdk_call "Estimator.fit";
    sdk_call "Model.create";
    sdk_call "Transformer.transform";
    sdk_call "ScriptProcessor.run";
    sdk_call "Model.register" ].

(** The external calls of a [get_pipeline] that returns, in the order of
    the source. *)
Definition pipeline_calls (w : World) (region : string) (role default_bucket : option string)
    (sagemaker_project_name sagemaker_project_id : option string) : list Call :=
  (calls_before_reads w region role default_bucket ++
   [ ssm_get_parameters_by_path TARGET_PATH;
     ssm_get_parameters_by_path HYPERPARAMETERS_PATH;
     ssm_get_parameters_by_path THRESHOLD_PATH ] ++
   job_calls region ++
   [ Pipeline_new (default "blockchain-forecasting" sagemaker_project_name ++ "-"
                   ++ default "mlops-pipeline" sagemaker_project_id) ])%list.

Definition succeeded (c : Call) : Event := {| ev_call := c; ev_raised := None |}.

(** The keys [get_pipeline] indexes in the three mappings. *)
Definition TARGET_KEYS : list string := ["freq"; "target_col"; "prediction_length"].
Definition HYPERPARAMETER_KEYS : list string :=
  ["epochs"; "early_stopping_patience"; "mini_batch_size"; "learning_rate"].

(** A string without the separator of parameter names. *)
Definition no_slash (s : string) : bool :=
  all_chars (fun a => negb (Ascii.eqb a "/"%char)) s.

Section GraphFields.
Context {float : Type}.

(** The role of every job of a step, nested steps included. *)
Fixpoint step_roles (s : Step float) : list string :=
  match s with
  | ProcessingStep _ args _ _ => [sp_role (pa_processor args)]
  | TrainingStep _ args _ => [e_role (ta_estimator args)]
  | ModelStep _ (ModelCreate model _ _) => [m_role model]
  | ModelStep _ (ModelRegister model _ _ _ _ _ _ _ _) => [m_role model]
  | TransformStep _ _ => []
  | QualityCheckStep _ _ _ _ check_job_config _ _ _ => [cj_role check_job_config]
  | ConditionStep _ _ if_steps else_steps =>
      (flat_map step_roles if_steps ++ flat_map step_roles else_steps)%list
  end.

(** The session of every job of a step, nested steps included. *)
Fixpoint step_sessions (s : Step float) : list PipelineSession :=
  match s with
  | ProcessingStep _ args _ _ => [sp_sagemaker_session (pa_processor args)]
  | TrainingStep _ args _ => [e_sagemaker_session (ta_estimator args)]
  | ModelStep _ (ModelCreate model _ _) => [m_sagemaker_session model]
  | ModelStep _ (ModelRegister model _ _ _ _ _ _ _ _) => [m_sagemaker_session model]
  | TransformStep _ args => [t_sagemaker_session (tr_transformer args)]
  | QualityCheckStep _ _ _ _ check_job_config _ _ _ =>
      [cj_sagemaker_session check_job_config]
  | ConditionStep _ _ if_steps else_steps =>
      (flat_map step_sessions if_steps ++ flat_map step_sessions else_steps)%list
  end.

(** The command-line arguments of a processing step. *)
Definition step_arguments (s : Step float) : list string :=
  match s with
  | ProcessingStep _ args _ _ => pa_arguments args
  | _ => []
  end.

(** The outputs a step declares, and its property files. *)
Definition step_outputs (s : Step float) : list string :=
  match s with
  | ProcessingStep _ args _ _ => List.map po_output_name (pa_outputs args)
  | _ => []
  end.

Definition step_property_files (s : Step float) : list PropertyFile :=
  match s with
  | ProcessingStep _ _ property_files _ => property_files
  | _ => []
  end.

Definition property_file_eqb (f g : PropertyFile) : bool :=
  String.eqb (pf_name f) (pf_name g)
  && String.eqb (pf_output_name f) (pf_output_name g)
  && String.eqb (pf_path f) (pf_path g).

Definition OUTPUTS_PREFIX : string := "ProcessingOutputConfig.Outputs[".

(** A reference resolves in [steps]: a reference to an output of a
    processing step names an output that step declares, and a [JsonGet]
    reads a property file its step declares, written to an output the
    step declares. *)
Fixpoint resolves (steps : list (Step float)) (v : PipelineVar) : bool :=
  match v with
  | Property step path =>
      if String.prefix OUTPUTS_PREFIX path then
        existsb (fun s =>
                   String.eqb (step_name s) step
                   && existsb (fun output =>
                                 String.eqb path
                                   (OUTPUTS_PREFIX ++ "'" ++ output ++ "'].S3Output.S3Uri"))
                        (step_outputs s))
          steps
      else true
  | JsonGet step file _ =>
      existsb (fun s =>
                 String.eqb (step_name s) step
                 && existsb (property_file_eqb file) (step_property_files s)
                 && mem (pf_output_name file) (step_outputs s))
        steps
  | Join _ values => forallb (resolves steps) values
  | _ => true
  end.

(** Every step of a list with the steps nested in it. *)
Fixpoint with_nested (s : Step float) : list (Step float) :=
  s :: match s with
       | ConditionStep _ _ if_steps else_steps =>
           (flat_map with_nested if_steps ++ flat_map with_nested else_steps)%list
       | _ => []
       end.

Definition all_steps (p : Pipeline float) : list (Step float) :=
  flat_map with_nested (p_steps p).

(** The transformers of the transform steps of a pipeline. *)
Definition transform_jobs (p : Pipeline float) : list Transformer :=
  flat_map (fun s => match s with
                     | TransformStep _ args => [tr_transformer args]
                     | _ => []
                     end) (all_steps p).

(** The quality check configurations of a pipeline. *)
Definition quality_checks (p : Pipeline float) : list ModelQualityCheckConfig :=
  flat_map (fun s => match s with
                     | QualityCheckStep _ _ _ config _ _ _ _ => [config]
                     | _ => []
                     end) (all_steps p).

End GraphFields.

(** A computation whose every new event satisfies [P]. *)
Definition traces {A} (P : Event -> Prop) (m : M A) : Prop :=
  forall r, exists events,
    trace (snd (m r)) = (trace r ++ events)%list /\ Forall P events.

(** An event that is no lookup in the project registry. *)
Definition no_tag_lookup (ev : Event) : Prop := is_tag_lookup (ev_call ev) = false.

(** The line a guarded read prints when it ends in [failure]. *)
Definition printed (message : string) (failure : option exn) : list string :=
  match failure with
  | Some e => [(message ++ exn_str e)%string]
  | None => []
  end.

(** The parameter store of [example_world] with a second threshold
    whose value is no number, and a third one after it. *)
Definition parameters_with_bad_threshold (path : string) : list SsmParameter :=
  if String.eqb path THRESHOLD_PATH then
    [ {| Name := THRESHOLD_PATH ++ "/mean_quantile_loss"; Value := "0.5" |};
      {| Name := THRESHOLD_PATH ++ "/coverage"; Value := "it's high" |};
      {| Name := THRESHOLD_PATH ++ "/rmse"; Value := "0.9" |} ]
  else example_parameters path.

Definition bad_threshold_world : World :=
  {| raises := no_failure;
     default_bucket_value := default_bucket_value (example_world no_failure);
     execution_role_value := execution_role_value (example_world no_failure);
     ssm_parameter_value := ssm_parameter_value (example_world no_failure);
     ssm_parameters := parameters_with_bad_threshold;
     base_python_image_uri := base_python_image_uri (example_world no_failure);
     image_uri := image_uri (example_world no_failure);
     project_arn := project_arn (example_world no_failure);
     resource_tags := resource_tags (example_world no_failure);
     BASE_DIR := BASE_DIR (example_world no_failure) |}.

(** The world of [bad_threshold_world] with a failing read of the model
    target parameters. *)
Definition target_failing_world : World :=
  {| raises := only (ssm_get_parameters_by_path TARGET_PATH) throttled;
     default_bucket_value := default_bucket_value bad_threshold_world;
     execution_role_value := execution_role_value bad_threshold_world;
     ssm_parameter_value := ssm_parameter_value bad_threshold_world;
     ssm_parameters := ssm_parameters bad_threshold_world;
     base_python_image_uri := base_python_image_uri bad_threshold_world;
     image_uri := image_uri bad_threshold_world;
     project_arn := project_arn bad_threshold_world;
     resource_tags := resource_tags bad_threshold_world;
     BASE_DIR := BASE_DIR bad_threshold_world |}.

(** * Properties *)

(** ** The model on examples *)

Example split_name :
  last_item (split "/"%char "/rdi-mlops/sagemaker/model-build/target/freq") = "freq".
Proof. reflexivity. Qed.

Example repr_examples :
  py_repr "high" = "'high'"
  /\ py_repr "it's high" = dquote ++ "it's high" ++ dquote
  /\ py_repr ("it's " ++ dquote ++ "x" ++ dquote) = "'it\'s " ++ dquote ++ "x" ++ dquote ++ "'"
  /\ py_repr "a\b" = "'a\\b'"
  /\ py_repr (String "009"%char (String "000"%char (String "173"%char EmptyString)))
     = "'\t\x00\xad'".
Proof. vm_compute. repeat split. Qed.

Example dumps_example :
  json_dumps (JDict [("num_samples", JInt 100);
                     ("quantiles", JList [JString "0.1"; JString "0.5"])])
  = "{" ++ dquote ++ "num_samples" ++ dquote ++ ": 100, " ++ dquote ++ "quantiles" ++ dquote
    ++ ": [" ++ dquote ++ "0.1" ++ dquote ++ ", " ++ dquote ++ "0.5" ++ dquote ++ "]}".
Proof. vm_compute. reflexivity. Qed.

Example example_runs :
  match example_get_pipeline no_failure None None None with
  | (Ok p, r) =>
      p_name p = "blockchain-forecasting-mlops-pipeline"
      /\ length (trace r) = 23%nat
      /\ stdout r = ["model validation threshold used is : mean_quantile_loss <= 0.5"]
  | _ => False
  end.
Proof. vm_compute. auto. Qed.

(** ** Inversion of the monad *)

Lemma bind_Ok {A B} (m : M A) (k : A -> M B) r b r' :
  bind m k r = (Ok b, r') ->
  exists a r1, m r = (Ok a, r1) /\ k a r1 = (Ok b, r').
Proof.
  unfold bind. destruct (m r) as [[a|e] r1]; intros H.
  - exists a, r1. split; [reflexivity | exact H].
  - discriminate H.
Qed.

Lemma call_Ok {A} w c (v a : A) r r' :
  call w c v r = (Ok a, r') ->
  raises w c = None /\ a = v /\ r' = log_event r c None.
Proof.
  unfold call. destruct (raises w c); intros H; inversion H; auto.
Qed.

Lemma getitem_Ok {V} (d : gmap string V) key v r r' :
  getitem d key r = (Ok v, r') -> d !! key = Some v /\ r' = r.
Proof.
  unfold getitem. destruct (d !! key); unfold ret, raise; intros H; inversion H; auto.
Qed.

Lemma print_Ok line u r r' :
  print line r = (Ok u, r') ->
  r' = {| stdout := (stdout r ++ [line])%list; trace := trace r |}.
Proof. unfold print. intros H. inversion H. reflexivity. Qed.

Ltac invert_step H :=
  lazy beta in H;
  match type of H with
  | bind _ _ _ = (Ok _, _) =>
      let Hm := fresh "Hm" in
      apply bind_Ok in H as (? & ? & Hm & H)
  end.

Ltac invert_leaves :=
  repeat match goal with
  | Hg : getitem _ _ _ = (Ok _, _) |- _ => apply getitem_Ok in Hg as (? & ->)
  | Hc : call _ _ _ _ = (Ok _, _) |- _ => apply call_Ok in Hc as (? & -> & ->)
  | Hp : print _ _ = (Ok _, _) |- _ => apply print_Ok in Hp as ->
  end.

(** Takes [H : get_pipeline .. r = (Ok p, r')] apart: [p] becomes the
    record the last statement builds, over the values bound on the way. *)
Ltac invert_get_pipeline H :=
  unfold get_pipeline in H;
  lazy beta zeta iota delta [properties output_s3_uri step_name tin_data] in H;
  repeat invert_step H;
  apply call_Ok in H as (? & -> & ->);
  invert_leaves.

(** ** The loops of the guarded reads *)

Lemma for_in_update {S A} (f : A -> S -> S) (xs : list A) (s : S) (r : Run) :
  for_in xs (fun x => update (f x)) s r = ((fold_left (fun s x => f x s) xs s, None), r).
Proof.
  revert s. induction xs as [|x xs IH]; intros s; simpl.
  - reflexivity.
  - unfold seq, update at 1. apply IH.
Qed.

Lemma for_in_float {float} (float_of_string : string -> option float)
    (response : list SsmParameter) (d : gmap string float) (r : Run) :
  for_in response (fun param =>
    eval (py_float float_of_string (Value param)) (fun x =>
    update (fun d => <[last_item (split "/"%char (Name param)) := x]> d))) d r
  = (float_mapping float_of_string response d, r).
Proof.
  revert d. induction response as [|param rest IH]; intros d; simpl.
  - reflexivity.
  - unfold seq, eval, py_float.
    destruct (float_of_string (Value param)) as [x|]; simpl.
    + apply IH.
    + reflexivity.
Qed.

Lemma read_model_target_parameters_run w ssm_client r :
  read_model_target_parameters w ssm_client r =
  match raises w (ssm_get_parameters_by_path TARGET_PATH) with
  | Some e =>
      (Ok ∅, after_read TARGET_PATH
               "An error occurred reading the model target parameters: " (Some e) r)
  | None =>
      (Ok (string_mapping (ssm_parameters w TARGET_PATH)),
       after_read TARGET_PATH "" None r)
  end.
Proof.
  unfold read_model_target_parameters, try_except, eval, get_parameters_by_path, call.
  destruct (raises w (ssm_get_parameters_by_path TARGET_PATH)) as [e|].
  - reflexivity.
  - rewrite (for_in_update (fun param d => <[parameter_key param := Value param]> d)).
    reflexivity.
Qed.

Lemma read_model_training_hyperparameters_run w ssm_client r :
  read_model_training_hyperparameters w ssm_client r =
  match raises w (ssm_get_parameters_by_path HYPERPARAMETERS_PATH) with
  | Some e =>
      (Ok ∅, after_read HYPERPARAMETERS_PATH
               "An error occurred reading the model training hyperparameters: " (Some e) r)
  | None =>
      (Ok (string_mapping (ssm_parameters w HYPERPARAMETERS_PATH)),
       after_read HYPERPARAMETERS_PATH "" None r)
  end.
Proof.
  unfold read_model_training_hyperparameters, try_except, eval, get_parameters_by_path, call.
  destruct (raises w (ssm_get_parameters_by_path HYPERPARAMETERS_PATH)) as [e|].
  - reflexivity.
  - rewrite (for_in_update (fun param d => <[parameter_key param := Value param]> d)).
    reflexivity.
Qed.

Lemma read_model_validation_thresholds_run {float} (fos : string -> option float)
    w ssm_client r :
  read_model_validation_thresholds fos w ssm_client r =
  (Ok (validation_thresholds fos w), after_validation_thresholds fos w r).
Proof.
  unfold read_model_validation_thresholds, try_except, eval at 1, get_parameters_by_path, call.
  unfold validation_thresholds, after_validation_thresholds, thresholds_failure.
  destruct (raises w (ssm_get_parameters_by_path THRESHOLD_PATH)) as [e|].
  - reflexivity.
  - rewrite for_in_float.
    destruct (float_mapping fos (ssm_parameters w THRESHOLD_PATH) ∅) as [d [e|]]; reflexivity.
Qed.

Lemma read_model_target_parameters_None w ssm_client r :
  raises w (ssm_get_parameters_by_path TARGET_PATH) = None ->
  read_model_target_parameters w ssm_client r =
  (Ok (string_mapping (ssm_parameters w TARGET_PATH)), after_read TARGET_PATH "" None r).
Proof. intros H. rewrite read_model_target_parameters_run, H. reflexivity. Qed.

Lemma read_model_training_hyperparameters_None w ssm_client r :
  raises w (ssm_get_parameters_by_path HYPERPARAMETERS_PATH) = None ->
  read_model_training_hyperparameters w ssm_client r =
  (Ok (string_mapping (ssm_parameters w HYPERPARAMETERS_PATH)),
   after_read HYPERPARAMETERS_PATH "" None r).
Proof. intros H. rewrite read_model_training_hyperparameters_run, H. reflexivity. Qed.

Lemma read_model_training_hyperparameters_Some w ssm_client r e :
  raises w (ssm_get_parameters_by_path HYPERPARAMETERS_PATH) = Some e ->
  read_model_training_hyperparameters w ssm_client r =
  (Ok ∅, after_read HYPERPARAMETERS_PATH
           "An error occurred reading the model training hyperparameters: " (Some e) r).
Proof. intros H. rewrite read_model_training_hyperparameters_run, H. reflexivity. Qed.

Lemma stdout_after_validation_thresholds {float} (fos : string -> option float) w r line :
  In line (stdout r) -> In line (stdout (after_validation_thresholds fos w r)).
Proof.
  intros H. unfold after_validation_thresholds. simpl.
  destruct (thresholds_failure fos w); [apply in_or_app; left|]; exact H.
Qed.

(** ** Failures of unguarded calls reach the caller *)

Lemma propagating_ret {A} (a : A) : propagating (ret a).
Proof.
  intros r. exists []. split; [simpl; rewrite app_nil_r; reflexivity|].
  intros ev e [].
Qed.

Lemma propagating_raise {A} (e0 : exn) : propagating (@raise A e0).
Proof.
  intros r. exists []. split; [simpl; rewrite app_nil_r; reflexivity|].
  intros ev e [].
Qed.

Lemma propagating_print line : propagating (print line).
Proof.
  intros r. exists []. split; [simpl; rewrite app_nil_r; reflexivity|].
  intros ev e [].
Qed.

Lemma propagating_getitem {V} (d : gmap string V) key : propagating (getitem d key).
Proof.
  unfold getitem. destruct (d !! key); [apply propagating_ret | apply propagating_raise].
Qed.

Lemma propagating_call {A} w c (v : A) : propagating (call w c v).
Proof.
  intros r. unfold call.
  destruct (raises w c) as [e0|] eqn:Hc.
  - exists [{| ev_call := c; ev_raised := Some e0 |}]. split; [reflexivity|].
    intros ev e [<- | []] _ He. simpl in He. injection He as <-. reflexivity.
  - exists [{| ev_call := c; ev_raised := None |}]. split; [reflexivity|].
    intros ev e [<- | []] _ He. discriminate He.
Qed.

Lemma propagating_bind {A B} (m : M A) (k : A -> M B) :
  propagating m -> (forall a, propagating (k a)) -> propagating (bind m k).
Proof.
  intros Hm Hk r. unfold bind.
  destruct (Hm r) as (ev1 & Ht1 & Hp1).
  destruct (m r) as [[a|e0] r1] eqn:Hmr; simpl in *.
  - destruct (Hk a r1) as (ev2 & Ht2 & Hp2).
    exists (ev1 ++ ev2)%list. split.
    + rewrite Ht2, Ht1, app_assoc. reflexivity.
    + intros ev e Hin Hg He. apply in_app_or in Hin as [Hin|Hin].
      * specialize (Hp1 ev e Hin Hg He). discriminate Hp1.
      * exact (Hp2 ev e Hin Hg He).
  - exists ev1. split; [exact Ht1|].
    intros ev e Hin Hg He. specialize (Hp1 ev e Hin Hg He).
    injection Hp1 as ->. reflexivity.
Qed.

Lemma propagating_guarded {A} (m : M A) path :
  (forall r, exists a failure message,
      m r = (Ok a, after_read path message failure r)) ->
  propagating m.
Proof.
  intros H r. destruct (H r) as (a & failure & message & ->).
  exists [{| ev_call := ssm_get_parameters_by_path path; ev_raised := failure |}].
  split.
  - destruct failure; reflexivity.
  - intros ev e [<- | []] Hg _. discriminate Hg.
Qed.

Lemma propagating_read_model_target_parameters w c :
  propagating (read_model_target_parameters w c).
Proof.
  apply (propagating_guarded _ TARGET_PATH). intros r.
  rewrite read_model_target_parameters_run.
  destruct (raises w (ssm_get_parameters_by_path TARGET_PATH)); eauto.
Qed.

Lemma propagating_read_model_training_hyperparameters w c :
  propagating (read_model_training_hyperparameters w c).
Proof.
  apply (propagating_guarded _ HYPERPARAMETERS_PATH). intros r.
  rewrite read_model_training_hyperparameters_run.
  destruct (raises w (ssm_get_parameters_by_path HYPERPARAMETERS_PATH)); eauto.
Qed.

Lemma propagating_read_model_validation_thresholds {float} (fos : string -> option float) w c :
  propagating (read_model_validation_thresholds fos w c).
Proof.
  intros r. rewrite read_model_validation_thresholds_run.
  exists [{| ev_call := ssm_get_parameters_by_path THRESHOLD_PATH;
             ev_raised := raises w (ssm_get_parameters_by_path THRESHOLD_PATH) |}].
  split; [reflexivity|].
  intros ev e [<- | []] Hg _. discriminate Hg.
Qed.

Create HintDb propagation.
#[local] Hint Resolve propagating_ret propagating_raise propagating_print
  propagating_getitem propagating_call propagating_read_model_target_parameters
  propagating_read_model_training_hyperparameters
  propagating_read_model_validation_thresholds : propagation.

Ltac propagate :=
  repeat (lazy beta;
          first [ solve [ auto with propagation ]
                | apply propagating_bind; [ | intros ? ] ]).

Lemma propagating_new_boto_session w region : propagating (new_boto_session w region).
Proof. unfold new_boto_session. auto with propagation. Qed.

Lemma propagating_client w boto_session service : propagating (client w boto_session service).
Proof. unfold client. auto with propagation. Qed.

#[local] Hint Resolve propagating_new_boto_session propagating_client : propagation.

Lemma propagating_get_session w region default_bucket :
  propagating (get_session w region default_bucket).
Proof. unfold get_session. propagate. Qed.

Lemma propagating_get_pipeline_session w region default_bucket :
  propagating (get_pipeline_session w region default_bucket).
Proof. unfold get_pipeline_session. propagate. Qed.

#[local] Hint Resolve propagating_get_session propagating_get_pipeline_session : propagation.

Lemma propagating_get_pipeline {float} (fos : string -> option float) (sof : float -> string)
    w region role default_bucket project_name project_id group :
  propagating (get_pipeline fos sof w region role default_bucket project_name project_id group).
Proof.
  unfold get_pipeline.
  lazy beta zeta iota delta [properties output_s3_uri step_name tin_data].
  destruct role; propagate.
Qed.

Lemma propagating_events {A} (m : M A) :
  propagating m ->
  forall r ev e,
    In ev (events_of m r) ->
    is_guarded_read (ev_call ev) = false ->
    ev_raised ev = Some e ->
    fst (m r) = Raise e.
Proof.
  intros Hm r ev e Hin Hg He. unfold events_of in Hin.
  destruct (Hm r) as (events & Ht & Hp).
  rewrite Ht, drop_app_length in Hin. exact (Hp ev e Hin Hg He).
Qed.

(** ** Running the monad forwards *)

Lemma run_bind {A B} (m : M A) (k : A -> M B) r a r1 res :
  m r = (Ok a, r1) -> k a r1 = res -> bind m k r = res.
Proof. intros Hm Hk. unfold bind. rewrite Hm. exact Hk. Qed.

Lemma run_bind_raise {A B} (m : M A) (k : A -> M B) r e r1 :
  m r = (Raise e, r1) -> bind m k r = (Raise e, r1).
Proof. intros Hm. unfold bind. rewrite Hm. reflexivity. Qed.

Lemma call_None {A} w c (v : A) r :
  raises w c = None -> call w c v r = (Ok v, log_event r c None).
Proof. intros H. unfold call. rewrite H. reflexivity. Qed.

Lemma call_Some {A} w c (v : A) r e :
  raises w c = Some e -> call w c v r = (Raise e, log_event r c (Some e)).
Proof. intros H. unfold call. rewrite H. reflexivity. Qed.

Lemma getitem_Some {V} (d : gmap string V) key v r :
  d !! key = Some v -> getitem d key r = (Ok v, r).
Proof. intros H. unfold getitem. rewrite H. reflexivity. Qed.

Lemma getitem_None {V} (d : gmap string V) key r :
  d !! key = None -> getitem d key r = (Raise (KeyError key), r).
Proof. intros H. unfold getitem. rewrite H. reflexivity. Qed.

(** [Hnone] says which calls succeed; each statement up to the first one
    it cannot run is executed. *)
Ltac run_leaf Hnone :=
  first [ apply call_None; apply Hnone; reflexivity
        | apply getitem_Some; eassumption
        | eassumption
        | reflexivity ].

Ltac run Hnone := repeat (lazy beta; eapply run_bind; [ solve [run_leaf Hnone] | ]).

Lemma get_session_None w region default_bucket r :
  (forall c, is_parameter_store_read c = false -> raises w c = None) ->
  get_session w region default_bucket r =
  (Ok {| s_boto_session := {| region_name := region |};
         s_sagemaker_client :=
           {| client_region := Some region; client_service := "sagemaker" |};
         s_sagemaker_runtime_client :=
           {| client_region := Some region; client_service := "sagemaker-runtime" |};
         s_default_bucket := default_bucket |},
   log_event (log_event (log_event (log_event r
     (boto3_Session region) None)
     (session_client region "sagemaker") None)
     (session_client region "sagemaker-runtime") None)
     (sagemaker_Session region default_bucket) None).
Proof.
  intros Hnone. unfold get_session, new_boto_session, client.
  run Hnone. apply call_None. apply Hnone. reflexivity.
Qed.

Lemma get_pipeline_session_None w region default_bucket r :
  (forall c, is_parameter_store_read c = false -> raises w c = None) ->
  get_pipeline_session w region default_bucket r =
  (Ok {| ps_boto_session := {| region_name := region |};
         ps_sagemaker_client :=
           {| client_region := Some region; client_service := "sagemaker" |};
         ps_default_bucket := default_bucket |},
   log_event (log_event (log_event r
     (boto3_Session region) None)
     (session_client region "sagemaker") None)
     (PipelineSession_new region default_bucket) None).
Proof.
  intros Hnone. unfold get_pipeline_session, new_boto_session, client.
  run Hnone. apply call_None. apply Hnone. reflexivity.
Qed.

(** Runs [get_pipeline] in the goal as far as the hypotheses allow;
    [Hps] says that every call other than a parameter store read
    succeeds. *)
Ltac run_pipeline_leaf Hps :=
  first [ apply call_None; apply Hps; reflexivity
        | apply call_None; eassumption
        | apply getitem_Some; eassumption
        | apply get_session_None; exact Hps
        | apply get_pipeline_session_None; exact Hps
        | apply read_model_target_parameters_None; eassumption
        | apply read_model_training_hyperparameters_None; eassumption
        | apply read_model_training_hyperparameters_Some; eassumption
        | apply read_model_validation_thresholds_run
        | reflexivity ].

Ltac run_pipeline Hps :=
  unfold get_pipeline;
  lazy beta zeta iota delta [properties output_s3_uri step_name tin_data];
  repeat (lazy beta; eapply run_bind; [ solve [run_pipeline_leaf Hps] | ]).

Section Properties.
Context {float : Type}.
Variable float_of_string : string -> option float.
Variable string_of_float : float -> string.

(** C8. With [sagemaker_project_name] absent the name
    "blockchain-forecasting" is used, with [sagemaker_project_id] absent
    the id "mlops-pipeline"; the name of the returned pipeline is always
    the project name, a hyphen, and the project id. *)
Theorem pipeline_name_defaults
    w region role default_bucket project_name project_id group r p r' :
  get_pipeline float_of_string string_of_float w region role default_bucket
    project_name project_id group r = (Ok p, r') ->
  p_name p = default "blockchain-forecasting" project_name ++ "-"
             ++ default "mlops-pipeline" project_id
  /\ (project_name = None -> forall given, project_id = Some given ->
      p_name p = "blockchain-forecasting" ++ "-" ++ given)
  /\ (project_id = None -> forall given, project_name = Some given ->
      p_name p = given ++ "-" ++ "mlops-pipeline")
  /\ (project_name = None -> project_id = None ->
      p_name p = "blockchain-forecasting-mlops-pipeline").
Proof.
  intros H. invert_get_pipeline H. simpl.
  split; [destruct project_name, project_id; reflexivity|].
  split; [intros -> given -> | split; [intros -> given -> | intros -> ->]]; reflexivity.
Qed.

(** C9. The parameter list of the returned pipeline holds the six
    declared execution-time placeholders and three plain strings that
    are no placeholders: the two instance-type constants and the feature
    group name read from the parameter store. *)
Theorem pipeline_parameters_mixed
    w region role default_bucket project_name project_id group r p r' :
  get_pipeline float_of_string string_of_float w region role default_bucket
    project_name project_id group r = (Ok p, r') ->
  List.filter is_placeholder (p_parameters p) =
    [ Param (ParameterInteger "ProcessingInstanceCount" 1);
      Param (ParameterString "ModelApprovalStatus" "PendingManualApproval");
      Param (ParameterBoolean "SkipModelQualityCheck" false);
      Param (ParameterBoolean "RegisterNewModelQualityBaseline" false);
      Param (ParameterString "ModelQualitySuppliedStatistics" "");
      Param (ParameterString "ModelQualitySuppliedConstraints" "") ]
  /\ List.filter is_plain_string (p_parameters p) =
    [ Str PROCESSING_INSTANCE_TYPE;
      Str TRAINING_INSTANCE_TYPE;
      Str (ssm_parameter_value w FEATURE_GROUP_NAME) ]
  /\ length (p_parameters p) = 9%nat.
Proof.
  intros H. invert_get_pipeline H. simpl. auto.
Qed.

(** C10. Every training job of the returned pipeline asks for spot
    instances, runs at most 3599 seconds and waits at most 3600 seconds,
    so its maximum run time is below its maximum wait time; there is one
    such job. *)
Theorem training_jobs_spot_limits
    w region role default_bucket project_name project_id group r p r' :
  get_pipeline float_of_string string_of_float w region role default_bucket
    project_name project_id group r = (Ok p, r') ->
  Forall (fun est =>
            e_use_spot_instances est = true
            /\ e_max_run est = 3599
            /\ e_max_wait est = 3600
            /\ e_max_run est < e_max_wait est)
         (training_jobs p)
  /\ length (training_jobs p) = 1%nat.
Proof.
  intros H. invert_get_pipeline H.
  split; [|reflexivity].
  repeat constructor.
Qed.

(** C4. The returned pipeline has exactly the top-level steps
    PreprocessData, TrainModel, CreateModel, Transform, EvaluateModel,
    QualityCheck, CheckMQLCondition, in this order, RegisterModel being
    nested in the condition step; every dependency and every property or
    report reference of a step names a step that comes earlier. *)
Theorem pipeline_steps_ordered
    w region role default_bucket project_name project_id group r p r' :
  get_pipeline float_of_string string_of_float w region role default_bucket
    project_name project_id group r = (Ok p, r') ->
  List.map step_name (p_steps p) =
    [ "PreprocessData"; "TrainModel"; "CreateModel"; "Transform";
      "EvaluateModel"; "QualityCheck"; "CheckMQLCondition" ]
  /\ step_names p =
    [ "PreprocessData"; "TrainModel"; "CreateModel"; "Transform";
      "EvaluateModel"; "QualityCheck"; "CheckMQLCondition"; "RegisterModel" ]
  /\ refs_defined [] (p_steps p) = true.
Proof.
  intros H. invert_get_pipeline H.
  repeat split; reflexivity.
Qed.

(** C3. The last step of the returned pipeline is the condition step: its
    one condition is a less-than-or-equal-to comparison of the value at
    [deepar_metrics.mean_quantile_loss.value] of the evaluation report of
    EvaluateModel with the threshold configured under
    [mean_quantile_loss]; its if-branch is exactly the model registration
    step, RegisterModel, built from [model.register] on the trained
    model with the metrics and drift baselines of the quality check, and
    its else-branch is empty. *)
Theorem condition_step_branches
    w region role default_bucket project_name project_id group r p r' :
  get_pipeline float_of_string string_of_float w region role default_bucket
    project_name project_id group r = (Ok p, r') ->
  exists threshold eval_step_args,
    fst (float_mapping float_of_string (ssm_parameters w THRESHOLD_PATH) ∅)
      !! "mean_quantile_loss" = Some threshold
    /\ p_steps p !! 4%nat =
         Some (ProcessingStep "EvaluateModel" eval_step_args
                 [ {| pf_name := "EvaluationReport"; pf_output_name := "evaluation";
                      pf_path := "evaluation.json" |} ]
                 ["Transform"])
    /\ p_steps p !! 6%nat =
         Some (ConditionStep "CheckMQLCondition"
                 [ ConditionLessThanOrEqualTo
                     (JsonGet "EvaluateModel"
                        {| pf_name := "EvaluationReport"; pf_output_name := "evaluation";
                           pf_path := "evaluation.json" |}
                        "deepar_metrics.mean_quantile_loss.value")
                     threshold ]
                 [ ModelStep "RegisterModel"
                     (ModelRegister
                        {| m_image_uri := image_uri w "forecasting-deepar" region "1";
                           m_model_data :=
                             Property "TrainModel" "ModelArtifacts.S3ModelArtifacts";
                           m_sagemaker_session := p_sagemaker_session p;
                           m_role := default (execution_role_value w) role |}
                        ["application/json"] ["application/json"]
                        ["ml.t2.medium"; "ml.m5.large"] ["ml.m5.large"]
                        group
                        (Param (ParameterString "ModelApprovalStatus"
                                  "PendingManualApproval"))
                        {| mm_model_statistics :=
                             {| ms_s3_uri :=
                                  Property "QualityCheck" "CalculatedBaselineStatistics";
                                ms_content_type := "application/json" |};
                           mm_model_constraints :=
                             {| ms_s3_uri :=
                                  Property "QualityCheck" "CalculatedBaselineConstraints";
                                ms_content_type := "application/json" |} |}
                        {| dcb_model_statistics :=
                             {| ms_s3_uri :=
                                  Property "QualityCheck"
                                    "BaselineUsedForDriftCheckStatistics";
                                ms_content_type := "application/json" |};
                           dcb_model_constraints :=
                             {| ms_s3_uri :=
                                  Property "QualityCheck"
                                    "BaselineUsedForDriftCheckConstraints";
                                ms_content_type := "application/json" |} |}) ]
                 [])
    /\ length (p_steps p) = 7%nat.
Proof.
  intros H. invert_get_pipeline H.
  match goal with
  | Hr : read_model_validation_thresholds _ _ _ _ = _ |- _ =>
      rewrite read_model_validation_thresholds_run in Hr;
      inversion Hr; subst; clear Hr
  end.
  unfold validation_thresholds in *.
  destruct (raises w (ssm_get_parameters_by_path THRESHOLD_PATH)).
  - match goal with Hl : ∅ !! _ = Some _ |- _ => rewrite lookup_empty in Hl; discriminate Hl end.
  - match goal with
    | Hr : match role with _ => _ end _ = (Ok _, _) |- _ =>
        destruct role;
        [ unfold ret in Hr; inversion Hr; subst; clear Hr
        | apply call_Ok in Hr as (_ & -> & _) ]
    end.
    all: eexists _, _; split; [eassumption|]; split; [reflexivity|];
      split; reflexivity.
Qed.

(** A returned pipeline shows that the three guarded reads succeeded and
    that every key the builder indexes was there. *)
Lemma get_pipeline_Ok_configuration
    w region role default_bucket project_name project_id group r p r' :
  get_pipeline float_of_string string_of_float w region role default_bucket
    project_name project_id group r = (Ok p, r') ->
  (raises w (ssm_get_parameters_by_path TARGET_PATH) = None
   /\ is_Some (string_mapping (ssm_parameters w TARGET_PATH) !! "freq"))
  /\ (raises w (ssm_get_parameters_by_path HYPERPARAMETERS_PATH) = None
      /\ is_Some (string_mapping (ssm_parameters w HYPERPARAMETERS_PATH) !! "epochs"))
  /\ (raises w (ssm_get_parameters_by_path THRESHOLD_PATH) = None
      /\ is_Some (validation_thresholds float_of_string w !! "mean_quantile_loss")).
Proof.
  intros H. invert_get_pipeline H.
  repeat match goal with
  | Hr : read_model_target_parameters _ _ _ = _ |- _ =>
      rewrite read_model_target_parameters_run in Hr
  | Hr : read_model_training_hyperparameters _ _ _ = _ |- _ =>
      rewrite read_model_training_hyperparameters_run in Hr
  | Hr : read_model_validation_thresholds _ _ _ _ = _ |- _ =>
      rewrite read_model_validation_thresholds_run in Hr; inversion Hr; subst; clear Hr
  end.
  unfold validation_thresholds in *.
  destruct (raises w (ssm_get_parameters_by_path TARGET_PATH));
    destruct (raises w (ssm_get_parameters_by_path HYPERPARAMETERS_PATH));
    destruct (raises w (ssm_get_parameters_by_path THRESHOLD_PATH));
    repeat match goal with
    | Hr : (Ok _, _) = (Ok _, _) |- _ => inversion Hr; subst; clear Hr
    end;
    try match goal with
    | Hl : ∅ !! _ = Some _ |- _ => rewrite lookup_empty in Hl; discriminate Hl
    end.
  repeat split; eauto.
Qed.

(** With every external call succeeding and the indexed keys configured,
    the builder returns a pipeline. *)
Lemma get_pipeline_returns
    w region role default_bucket project_name project_id group r :
  (forall c, raises w c = None) ->
  is_Some (string_mapping (ssm_parameters w TARGET_PATH) !! "freq") ->
  is_Some (string_mapping (ssm_parameters w TARGET_PATH) !! "target_col") ->
  is_Some (string_mapping (ssm_parameters w TARGET_PATH) !! "prediction_length") ->
  is_Some (string_mapping (ssm_parameters w HYPERPARAMETERS_PATH) !! "epochs") ->
  is_Some (string_mapping (ssm_parameters w HYPERPARAMETERS_PATH)
             !! "early_stopping_patience") ->
  is_Some (string_mapping (ssm_parameters w HYPERPARAMETERS_PATH) !! "mini_batch_size") ->
  is_Some (string_mapping (ssm_parameters w HYPERPARAMETERS_PATH) !! "learning_rate") ->
  is_Some (validation_thresholds float_of_string w !! "mean_quantile_loss") ->
  exists p r',
    get_pipeline float_of_string string_of_float w region role default_bucket
      project_name project_id group r = (Ok p, r').
Proof.
  intros Hnone [? ?] [? ?] [? ?] [? ?] [? ?] [? ?] [? ?] [? ?].
  assert (Hps : forall c, is_parameter_store_read c = false -> raises w c = None)
    by (intros c _; apply Hnone).
  pose proof (Hnone (ssm_get_parameters_by_path TARGET_PATH)).
  pose proof (Hnone (ssm_get_parameters_by_path HYPERPARAMETERS_PATH)).
  pose proof (Hnone (ssm_get_parameter FEATURE_GROUP_NAME)).
  destruct role; eexists _, _; run_pipeline Hps; apply call_None; apply Hnone.
Qed.

(** C1, amended. When the read of the training hyperparameters fails, the
    failure is caught and printed and the mapping read stays empty, but
    no pipeline is returned: the build ends in an exception, and when
    every other call succeeds and the target parameters are configured
    that exception is the [KeyError] of the key [epochs], raised where
    the hyperparameters of the training step are put together. *)
Theorem training_hyperparameters_failure
    w e region role default_bucket project_name project_id group :
  raises w (ssm_get_parameters_by_path HYPERPARAMETERS_PATH) = Some e ->
  (forall ssm_client r,
      read_model_training_hyperparameters w ssm_client r =
      (Ok ∅, {| stdout := (stdout r ++
                  [("An error occurred reading the model training hyperparameters: "
                    ++ exn_str e)%string])%list;
                trace := (trace r ++
                  [{| ev_call := ssm_get_parameters_by_path HYPERPARAMETERS_PATH;
                      ev_raised := Some e |}])%list |}))
  /\ (forall r, exists e' r',
         get_pipeline float_of_string string_of_float w region role default_bucket
           project_name project_id group r
         = (Raise e', r'))
  /\ ((forall c, c <> ssm_get_parameters_by_path HYPERPARAMETERS_PATH -> raises w c = None) ->
      is_Some (string_mapping (ssm_parameters w TARGET_PATH) !! "freq") ->
      is_Some (string_mapping (ssm_parameters w TARGET_PATH) !! "target_col") ->
      is_Some (string_mapping (ssm_parameters w TARGET_PATH) !! "prediction_length") ->
      forall r, exists r',
        get_pipeline float_of_string string_of_float w region role default_bucket
          project_name project_id group r
        = (Raise (KeyError "epochs"), r')
        /\ In ("An error occurred reading the model training hyperparameters: "
               ++ exn_str e) (stdout r')).
Proof.
  intros Hfail. split; [|split].
  - intros ssm_client r.
    rewrite (read_model_training_hyperparameters_Some _ _ _ _ Hfail). reflexivity.
  - intros r.
    destruct (get_pipeline float_of_string string_of_float w region role default_bucket
      project_name project_id group r)
      as [[p|e'] r'] eqn:H.
    + apply get_pipeline_Ok_configuration in H as (_ & (Hnone & _) & _). congruence.
    + eauto.
  - intros Hnone [? ?] [? ?] [? ?] r.
    assert (Hps : forall c, is_parameter_store_read c = false -> raises w c = None)
      by (intros c Hc; apply Hnone; intros ->; discriminate Hc).
    assert (raises w (ssm_get_parameters_by_path TARGET_PATH) = None)
      by (apply Hnone; discriminate).
    assert (raises w (ssm_get_parameter FEATURE_GROUP_NAME) = None)
      by (apply Hnone; discriminate).
    destruct role; eexists; split.
    1, 3: run_pipeline Hps; apply run_bind_raise; apply getitem_None; apply lookup_empty.
    all: simpl; destruct (thresholds_failure float_of_string w);
      rewrite !in_app_iff; simpl; auto.
Qed.

(** C2, amended. Each of the three reads by path (model target,
    training hyperparameters, validation thresholds) is guarded: when it
    fails the failure is caught, one line is printed, the mapping stays
    empty and the next statement runs; no pipeline is returned after
    that, since a key the builder needs is missing.  The read of the
    feature group name is not guarded: when it fails, the exception
    reaches the caller as it is. *)
Theorem parameter_store_failures w e :
  (raises w (ssm_get_parameters_by_path TARGET_PATH) = Some e ->
   forall ssm_client r,
     read_model_target_parameters w ssm_client r =
     (Ok ∅, after_read TARGET_PATH
              "An error occurred reading the model target parameters: " (Some e) r))
  /\ (raises w (ssm_get_parameters_by_path HYPERPARAMETERS_PATH) = Some e ->
      forall ssm_client r,
        read_model_training_hyperparameters w ssm_client r =
        (Ok ∅, after_read HYPERPARAMETERS_PATH
                 "An error occurred reading the model training hyperparameters: "
                 (Some e) r))
  /\ (raises w (ssm_get_parameters_by_path THRESHOLD_PATH) = Some e ->
      forall ssm_client r,
        read_model_validation_thresholds float_of_string w ssm_client r =
        (Ok ∅, after_read THRESHOLD_PATH
                 "An error occurred reading the model validation thresholds: "
                 (Some e) r))
  /\ (forall path,
        In path [TARGET_PATH; HYPERPARAMETERS_PATH; THRESHOLD_PATH] ->
        raises w (ssm_get_parameters_by_path path) = Some e ->
        forall region role default_bucket project_name project_id group r p r',
          get_pipeline float_of_string string_of_float w region role default_bucket
            project_name project_id group r
          <> (Ok p, r'))
  /\ (forall region role default_bucket project_name project_id group r,
        In {| ev_call := ssm_get_parameter FEATURE_GROUP_NAME; ev_raised := Some e |}
           (events_of (get_pipeline float_of_string string_of_float w region role default_bucket
             project_name project_id group) r) ->
        fst (get_pipeline float_of_string string_of_float w region role default_bucket
          project_name project_id group r)
        = Raise e).
Proof.
  repeat split.
  - intros H ssm_client r. rewrite read_model_target_parameters_run, H. reflexivity.
  - intros H ssm_client r. rewrite read_model_training_hyperparameters_run, H. reflexivity.
  - intros H ssm_client r. rewrite read_model_validation_thresholds_run.
    unfold validation_thresholds, after_validation_thresholds, thresholds_failure.
    rewrite H. reflexivity.
  - intros path Hin Hfail region role default_bucket project_name project_id group r p r' H.
    apply get_pipeline_Ok_configuration in H as ((H1 & _) & (H2 & _) & (H3 & _)).
    simpl in Hin. destruct Hin as [<- | [<- | [<- | []]]]; congruence.
  - intros region role default_bucket project_name project_id group r Hin.
    eapply propagating_events; [apply propagating_get_pipeline | exact Hin | | ]; reflexivity.
Qed.

(** C6. Inside [get_pipeline], the failure of any external call that is
    neither a parameter store read nor a tag lookup (the image lookups,
    the resolution of the execution role, the construction of the
    pipeline object among them) is the exception the caller gets. *)
Theorem platform_failures_propagate
    w region role default_bucket project_name project_id group r ev e :
  In ev (events_of (get_pipeline float_of_string string_of_float w region role default_bucket
    project_name project_id group) r) ->
  is_parameter_store_read (ev_call ev) = false ->
  is_tag_lookup (ev_call ev) = false ->
  ev_raised ev = Some e ->
  fst (get_pipeline float_of_string string_of_float w region role default_bucket
    project_name project_id group r) = Raise e.
Proof.
  intros Hin Hps _ He.
  eapply propagating_events; [apply propagating_get_pipeline | exact Hin | | exact He].
  destruct (ev_call ev); try reflexivity; discriminate Hps.
Qed.

(** C7. Two calls with the same arguments, in worlds whose parameter
    store answers alike, that both return a pipeline return pipelines
    with the same step names, the same parameter list and the same
    wiring of dependencies, parameter and property references. *)
Theorem structural_determinism
    w1 w2 region role default_bucket project_name project_id group r1 r2 p1 p2 r1' r2' :
  same_configuration w1 w2 ->
  get_pipeline float_of_string string_of_float w1 region role default_bucket
    project_name project_id group r1 = (Ok p1, r1') ->
  get_pipeline float_of_string string_of_float w2 region role default_bucket
    project_name project_id group r2 = (Ok p2, r2') ->
  step_names p1 = step_names p2
  /\ p_parameters p1 = p_parameters p2
  /\ pipeline_wiring p1 = pipeline_wiring p2.
Proof.
  intros (_ & Hvalue & _) H1 H2.
  invert_get_pipeline H1. invert_get_pipeline H2.
  split; [|split].
  - lazy. reflexivity.
  - simpl. rewrite (Hvalue FEATURE_GROUP_NAME). reflexivity.
  - lazy. reflexivity.
Qed.

End Properties.

(** ** The project tags *)

Lemma fold_left_append {A} (xs : list A) (s : list A) :
  fold_left (fun s x => (s ++ [x])%list) xs s = (s ++ xs)%list.
Proof.
  revert s. induction xs as [|x xs IH]; intros s; simpl.
  - rewrite app_nil_r. reflexivity.
  - rewrite IH, <- app_assoc. reflexivity.
Qed.

(** When every lookup succeeds the project tags are appended to the
    caller's list, in order. *)
Lemma custom_tags_appended w new_tags region project_name r :
  (forall c, raises w c = None) ->
  fst (get_pipeline_custom_tags w new_tags region project_name r)
  = Ok (new_tags ++ resource_tags w (project_arn w project_name))%list.
Proof.
  intros Hnone.
  unfold get_pipeline_custom_tags, try_except, eval, get_sagemaker_client,
    new_boto_session, client, bind, call, ret.
  rewrite !Hnone.
  rewrite (for_in_update (fun project_tag new_tags => (new_tags ++ [project_tag])%list)).
  simpl. rewrite fold_left_append. reflexivity.
Qed.

(** C5. When a lookup inside [get_pipeline_custom_tags] fails (creating
    the client, describing the project or listing its tags), the
    exception is caught and printed and the caller's tag list is
    returned as it was given. *)
Theorem custom_tags_unchanged_on_failure w new_tags region project_name r :
  raises w (boto3_Session region) <> None
  \/ raises w (session_client region "sagemaker") <> None
  \/ raises w (sm_describe_project project_name) <> None
  \/ raises w (sm_list_tags (project_arn w project_name)) <> None ->
  exists e r',
    get_pipeline_custom_tags w new_tags region project_name r = (Ok new_tags, r')
    /\ stdout r' = (stdout r ++ [("Error getting project tags: " ++ exn_str e)%string])%list
    /\ exists c, In {| ev_call := c; ev_raised := Some e |} (trace r').
Proof.
  intros H.
  unfold get_pipeline_custom_tags, try_except, eval, get_sagemaker_client,
    new_boto_session, client, bind, call, ret.
  destruct (raises w (boto3_Session region)) as [e|] eqn:H1.
  { exists e. eexists. repeat split. eexists. simpl. apply in_or_app. right. left. reflexivity. }
  simpl.
  destruct (raises w (session_client region "sagemaker")) as [e|] eqn:H2.
  { exists e. eexists. repeat split. eexists. simpl. apply in_or_app. right. left. reflexivity. }
  simpl.
  destruct (raises w (sm_describe_project project_name)) as [e|] eqn:H3.
  { exists e. eexists. repeat split. eexists. simpl. apply in_or_app. right. left. reflexivity. }
  simpl.
  destruct (raises w (sm_list_tags (project_arn w project_name))) as [e|] eqn:H4.
  { exists e. eexists. repeat split. eexists. simpl. apply in_or_app. right. left. reflexivity. }
  exfalso. destruct H as [H|[H|[H|H]]]; apply H; reflexivity.
Qed.

(** ** The properties on the example worlds *)

Lemma custom_tags_unchanged_on_failure_witness :
  exists e r',
    get_pipeline_custom_tags
      (example_world (only (sm_describe_project (Some "forecast")) throttled))
      example_tags "eu-west-1" (Some "forecast") run0 = (Ok example_tags, r')
    /\ stdout r' = (stdout run0 ++ [("Error getting project tags: " ++ exn_str e)%string])%list
    /\ exists c, In {| ev_call := c; ev_raised := Some e |} (trace r').
Proof.
  apply (custom_tags_unchanged_on_failure
           (example_world (only (sm_describe_project (Some "forecast")) throttled))
           example_tags "eu-west-1" (Some "forecast") run0).
  right. right. left. vm_compute. discriminate.
Defined.

(** Splits a statement about an example call that returns a pipeline. *)
Ltac example_pipeline E :=
  unfold example_get_pipeline;
  match goal with
  | |- exists p r', ?run = _ /\ _ =>
      let p := fresh "p" in
      let r' := fresh "r'" in
      destruct run as [[p|?] r'] eqn:E;
      [ exists p, r'; split; [reflexivity|]
      | vm_compute in E; discriminate E ]
  end.

Lemma pipeline_name_defaults_witness :
  exists p r',
    example_get_pipeline no_failure None None None = (Ok p, r')
    /\ p_name p = "blockchain-forecasting-mlops-pipeline".
Proof.
  example_pipeline E.
  apply (pipeline_name_defaults _ _ _ _ _ _ _ _ _ _ _ _ E); reflexivity.
Defined.

Lemma training_jobs_spot_limits_witness :
  exists p r',
    example_get_pipeline no_failure (Some "arn:aws:iam::000000000000:role/given") None None
    = (Ok p, r')
    /\ (Forall (fun est =>
            e_use_spot_instances est = true
            /\ e_max_run est = 3599
            /\ e_max_wait est = 3600
            /\ e_max_run est < e_max_wait est)
         (training_jobs p)
        /\ length (training_jobs p) = 1%nat).
Proof.
  example_pipeline E.
  exact (training_jobs_spot_limits _ _ _ _ _ _ _ _ _ _ _ _ E).
Defined.

Lemma pipeline_parameters_mixed_witness :
  exists p r',
    example_get_pipeline no_failure None (Some "forecast") (Some "p-1") = (Ok p, r')
    /\ List.filter is_plain_string (p_parameters p) =
         [ Str "ml.t3.medium"; Str "ml.c5.2xlarge"; Str "blockchain-feature-group" ]
    /\ length (List.filter is_placeholder (p_parameters p)) = 6%nat.
Proof.
  example_pipeline E.
  destruct (pipeline_parameters_mixed _ _ _ _ _ _ _ _ _ _ _ _ E) as (Hp & Hs & _).
  split; [exact Hs | rewrite Hp; reflexivity].
Defined.

Lemma pipeline_steps_ordered_witness :
  exists p r',
    example_get_pipeline no_failure None None None = (Ok p, r')
    /\ (List.map step_name (p_steps p) =
          [ "PreprocessData"; "TrainModel"; "CreateModel"; "Transform";
            "EvaluateModel"; "QualityCheck"; "CheckMQLCondition" ]
        /\ step_names p =
          [ "PreprocessData"; "TrainModel"; "CreateModel"; "Transform";
            "EvaluateModel"; "QualityCheck"; "CheckMQLCondition"; "RegisterModel" ]
        /\ refs_defined [] (p_steps p) = true).
Proof.
  example_pipeline E.
  exact (pipeline_steps_ordered _ _ _ _ _ _ _ _ _ _ _ _ E).
Defined.

Lemma condition_step_branches_witness :
  exists p r',
    example_get_pipeline no_failure None None None = (Ok p, r')
    /\ p_steps p !! 6%nat =
         Some (ConditionStep "CheckMQLCondition"
                 [ ConditionLessThanOrEqualTo
                     (JsonGet "EvaluateModel"
                        {| pf_name := "EvaluationReport"; pf_output_name := "evaluation";
                           pf_path := "evaluation.json" |}
                        "deepar_metrics.mean_quantile_loss.value")
                     "0.5" ]
                 [ ModelStep "RegisterModel"
                     (ModelRegister
                        {| m_image_uri := "eu-west-1/forecasting-deepar:1";
                           m_model_data :=
                             Property "TrainModel" "ModelArtifacts.S3ModelArtifacts";
                           m_sagemaker_session := p_sagemaker_session p;
                           m_role := "arn:aws:iam::000000000000:role/pipeline" |}
                        ["application/json"] ["application/json"]
                        ["ml.t2.medium"; "ml.m5.large"] ["ml.m5.large"]
                        "Blockchain"
                        (Param (ParameterString "ModelApprovalStatus"
                                  "PendingManualApproval"))
                        {| mm_model_statistics :=
                             {| ms_s3_uri :=
                                  Property "QualityCheck" "CalculatedBaselineStatistics";
                                ms_content_type := "application/json" |};
                           mm_model_constraints :=
                             {| ms_s3_uri :=
                                  Property "QualityCheck" "CalculatedBaselineConstraints";
                                ms_content_type := "application/json" |} |}
                        {| dcb_model_statistics :=
                             {| ms_s3_uri :=
                                  Property "QualityCheck"
                                    "BaselineUsedForDriftCheckStatistics";
                                ms_content_type := "application/json" |};
                           dcb_model_constraints :=
                             {| ms_s3_uri :=
                                  Property "QualityCheck"
                                    "BaselineUsedForDriftCheckConstraints";
                                ms_content_type := "application/json" |} |}) ]
                 []).
Proof.
  example_pipeline E.
  destruct (condition_step_branches _ _ _ _ _ _ _ _ _ _ _ _ E)
    as (threshold & eval_step_args & Ht & _ & Hc & _).
  vm_compute in Ht. injection Ht as <-. exact Hc.
Defined.

Lemma structural_determinism_witness :
  exists p1 r1 p2 r2,
    example_get_pipeline no_failure None None None = (Ok p1, r1)
    /\ get_pipeline decimal_of_string string_of_decimal other_world
         "eu-west-1" None None None None "Blockchain" run0 = (Ok p2, r2)
    /\ step_names p1 = step_names p2
    /\ p_parameters p1 = p_parameters p2
    /\ pipeline_wiring p1 = pipeline_wiring p2.
Proof.
  unfold example_get_pipeline.
  destruct (get_pipeline decimal_of_string string_of_decimal (example_world no_failure)
              "eu-west-1" None None None None "Blockchain" run0) as [[p1|?] r1] eqn:E1;
    [|vm_compute in E1; discriminate E1].
  destruct (get_pipeline decimal_of_string string_of_decimal other_world
              "eu-west-1" None None None None "Blockchain" run0) as [[p2|?] r2] eqn:E2;
    [|vm_compute in E2; discriminate E2].
  exists p1, r1, p2, r2. split; [reflexivity|]. split; [reflexivity|].
  eapply (structural_determinism _ _ (example_world no_failure) other_world);
    [|exact E1|exact E2].
  split; [intros c _; reflexivity | split; intros; reflexivity].
Defined.

Ltac find_event := vm_compute; repeat (first [left; reflexivity | right]).

Lemma platform_failures_propagate_witness :
  fst (example_get_pipeline
         (only (image_uris_retrieve "forecasting-deepar" "eu-west-1" "1") throttled)
         None None None) = Raise throttled
  /\ fst (example_get_pipeline (only get_execution_role throttled) None None None)
     = Raise throttled
  /\ fst (example_get_pipeline
            (only (Pipeline_new "blockchain-forecasting-mlops-pipeline") throttled)
            None None None) = Raise throttled.
Proof.
  unfold example_get_pipeline. split; [|split].
  - apply (platform_failures_propagate _ _ _ _ _ _ _ _ _ _
             {| ev_call := image_uris_retrieve "forecasting-deepar" "eu-west-1" "1";
                ev_raised := Some throttled |});
      [find_event | reflexivity | reflexivity | reflexivity].
  - apply (platform_failures_propagate _ _ _ _ _ _ _ _ _ _
             {| ev_call := get_execution_role; ev_raised := Some throttled |});
      [find_event | reflexivity | reflexivity | reflexivity].
  - apply (platform_failures_propagate _ _ _ _ _ _ _ _ _ _
             {| ev_call := Pipeline_new "blockchain-forecasting-mlops-pipeline";
                ev_raised := Some throttled |});
      [find_event | reflexivity | reflexivity | reflexivity].
Defined.

Lemma training_hyperparameters_failure_witness :
  exists r',
    example_get_pipeline
      (only (ssm_get_parameters_by_path HYPERPARAMETERS_PATH) throttled) None None None
    = (Raise (KeyError "epochs"), r')
    /\ In "An error occurred reading the model training hyperparameters: ThrottlingException"
          (stdout r').
Proof.
  destruct (training_hyperparameters_failure decimal_of_string string_of_decimal
              (example_world (only (ssm_get_parameters_by_path HYPERPARAMETERS_PATH) throttled))
              throttled "eu-west-1" None None None None "Blockchain")
    as (_ & _ & H).
  - reflexivity.
  - apply H.
    + intros c Hc. simpl. unfold only. destruct (decide _); [contradiction | reflexivity].
    + vm_compute. eexists. reflexivity.
    + vm_compute. eexists. reflexivity.
    + vm_compute. eexists. reflexivity.
Defined.

(** C1 as stated fails: with the hyperparameter read failing and
    everything else in order, no pipeline is returned; the build raises
    [KeyError] for [epochs] after printing the caught failure. *)
Lemma training_hyperparameters_failure_counterexample :
  raises (example_world (only (ssm_get_parameters_by_path HYPERPARAMETERS_PATH) throttled))
    (ssm_get_parameters_by_path HYPERPARAMETERS_PATH) = Some throttled
  /\ fst (example_get_pipeline
            (only (ssm_get_parameters_by_path HYPERPARAMETERS_PATH) throttled)
            None None None) = Raise (KeyError "epochs")
  /\ stdout (snd (example_get_pipeline
                    (only (ssm_get_parameters_by_path HYPERPARAMETERS_PATH) throttled)
                    None None None))
     = ["An error occurred reading the model training hyperparameters: ThrottlingException"]
  /\ ~ exists p r',
         example_get_pipeline
           (only (ssm_get_parameters_by_path HYPERPARAMETERS_PATH) throttled)
           None None None = (Ok p, r').
Proof.
  repeat split; try (vm_compute; reflexivity).
  intros (p & r' & H). vm_compute in H. discriminate H.
Qed.

Lemma parameter_store_failures_witness :
  read_model_target_parameters (example_world no_parameter_store)
    {| client_region := None; client_service := "ssm" |} run0
  = (Ok ∅, {| stdout :=
                ["An error occurred reading the model target parameters: ThrottlingException"];
              trace := [{| ev_call := ssm_get_parameters_by_path TARGET_PATH;
                           ev_raised := Some throttled |}] |})
  /\ fst (read_model_training_hyperparameters (example_world no_parameter_store)
            {| client_region := None; client_service := "ssm" |} run0) = Ok ∅
  /\ fst (read_model_validation_thresholds decimal_of_string
            (example_world no_parameter_store)
            {| client_region := None; client_service := "ssm" |} run0) = Ok ∅
  /\ (forall p r', example_get_pipeline no_parameter_store None None None <> (Ok p, r'))
  /\ fst (example_get_pipeline no_parameter_store None None None) = Raise throttled.
Proof.
  destruct (parameter_store_failures decimal_of_string string_of_decimal
              (example_world no_parameter_store) throttled)
    as (H1 & H2 & H3 & H4 & H5).
  split; [|split; [|split; [|split]]].
  - rewrite H1; reflexivity.
  - rewrite H2; reflexivity.
  - rewrite H3; reflexivity.
  - intros p r'. apply (H4 TARGET_PATH); [left; reflexivity | reflexivity].
  - apply H5. find_event.
Defined.

(** C2 as stated fails: the read of the feature group name is not
    inside a [try]; when it fails nothing is printed and the exception
    reaches the caller. *)
Lemma parameter_store_failures_counterexample :
  raises (example_world (only (ssm_get_parameter FEATURE_GROUP_NAME) throttled))
    (ssm_get_parameter FEATURE_GROUP_NAME) = Some throttled
  /\ fst (example_get_pipeline (only (ssm_get_parameter FEATURE_GROUP_NAME) throttled)
            None None None) = Raise throttled
  /\ stdout (snd (example_get_pipeline
                    (only (ssm_get_parameter FEATURE_GROUP_NAME) throttled)
                    None None None)) = [].
Proof. repeat split; vm_compute; reflexivity. Qed.

(** * Further properties of the module *)

(** ** Sessions and clients *)

Lemma run_eq (r : Run) (out : list string) (tr : list Event) :
  stdout r = out -> trace r = tr -> r = {| stdout := out; trace := tr |}.
Proof. destruct r; simpl; intros -> ->; reflexivity. Qed.

Lemma result_at {A} (x : result A * Run) res r1 r2 :
  x = (res, r1) -> r1 = r2 -> x = (res, r2).
Proof. intros -> ->. reflexivity. Qed.

(** X1. [get_session] makes its four calls in the order of the source
    and stops at the first that fails, whose exception it raises; it
    prints nothing, and the session it returns carries the region and
    the bucket it was given. *)
Theorem get_session_calls w region default_bucket r :
  get_session w region default_bucket r =
  (match first_failure w (session_calls region default_bucket) with
   | Some e => Raise e
   | None =>
       Ok {| s_boto_session := {| region_name := region |};
             s_sagemaker_client :=
               {| client_region := Some region; client_service := "sagemaker" |};
             s_sagemaker_runtime_client :=
               {| client_region := Some region; client_service := "sagemaker-runtime" |};
             s_default_bucket := default_bucket |}
   end,
   {| stdout := stdout r;
      trace := (trace r ++ until_first_failure w (session_calls region default_bucket))%list |}).
Proof.
  unfold get_session, new_boto_session, client, bind, call, session_calls, log_event. simpl.
  destruct (raises w (boto3_Session region)); simpl; [reflexivity|].
  destruct (raises w (session_client region "sagemaker")); simpl;
    [rewrite <- !app_assoc; reflexivity|].
  destruct (raises w (session_client region "sagemaker-runtime")); simpl;
    [rewrite <- !app_assoc; reflexivity|].
  destruct (raises w (sagemaker_Session region default_bucket)); simpl;
    rewrite <- !app_assoc; reflexivity.
Qed.

(** X2. [get_pipeline_session] makes its three calls in the order of the
    source and stops at the first that fails, whose exception it raises;
    it prints nothing, and the session it returns carries the region and
    the bucket it was given. *)
Theorem get_pipeline_session_calls w region default_bucket r :
  get_pipeline_session w region default_bucket r =
  (match first_failure w (pipeline_session_calls region default_bucket) with
   | Some e => Raise e
   | None =>
       Ok {| ps_boto_session := {| region_name := region |};
             ps_sagemaker_client :=
               {| client_region := Some region; client_service := "sagemaker" |};
             ps_default_bucket := default_bucket |}
   end,
   {| stdout := stdout r;
      trace := (trace r
                ++ until_first_failure w (pipeline_session_calls region default_bucket))%list |}).
Proof.
  unfold get_pipeline_session, new_boto_session, client, bind, call,
    pipeline_session_calls, log_event. simpl.
  destruct (raises w (boto3_Session region)); simpl; [reflexivity|].
  destruct (raises w (session_client region "sagemaker")); simpl;
    [rewrite <- !app_assoc; reflexivity|].
  destruct (raises w (PipelineSession_new region default_bucket)); simpl;
    rewrite <- !app_assoc; reflexivity.
Qed.

(** ** The project tags *)

(** X3. [get_pipeline_custom_tags] never raises: whatever the lookups
    do, it returns a list, which is the caller's list as given or the
    caller's list followed by the tags of the project. *)
Theorem custom_tags_never_raises w new_tags region project_name r :
  exists tags r',
    get_pipeline_custom_tags w new_tags region project_name r = (Ok tags, r')
    /\ (tags = new_tags
        \/ tags = (new_tags ++ resource_tags w (project_arn w project_name))%list).
Proof.
  unfold get_pipeline_custom_tags, try_except, eval, get_sagemaker_client,
    new_boto_session, client, bind, call, ret, print.
  destruct (raises w (boto3_Session region)); simpl; [eauto|].
  destruct (raises w (session_client region "sagemaker")); simpl; [eauto|].
  destruct (raises w (sm_describe_project project_name)); simpl; [eauto|].
  destruct (raises w (sm_list_tags (project_arn w project_name))); simpl; [eauto|].
  rewrite (for_in_update (fun project_tag new_tags => (new_tags ++ [project_tag])%list)).
  rewrite fold_left_append. eauto.
Qed.

(** X4. When the client is created and both lookups succeed, the tags of
    the project are appended to the caller's list in the order of the
    response, nothing is printed, and the four calls are traced in the
    order client session, client, describe, list. *)
Theorem custom_tags_appended_in_order w new_tags region project_name r :
  raises w (boto3_Session region) = None ->
  raises w (session_client region "sagemaker") = None ->
  raises w (sm_describe_project project_name) = None ->
  raises w (sm_list_tags (project_arn w project_name)) = None ->
  get_pipeline_custom_tags w new_tags region project_name r =
  (Ok (new_tags ++ resource_tags w (project_arn w project_name))%list,
   {| stdout := stdout r;
      trace := (trace r ++
                List.map succeeded
                  (sagemaker_client_calls region ++
                   [ sm_describe_project project_name;
                     sm_list_tags (project_arn w project_name) ]))%list |}).
Proof.
  intros H1 H2 H3 H4.
  unfold get_pipeline_custom_tags, try_except, eval, get_sagemaker_client,
    new_boto_session, client, bind, call, ret.
  rewrite H1. simpl. rewrite H2. simpl. rewrite H3. simpl. rewrite H4. simpl.
  rewrite (for_in_update (fun project_tag new_tags => (new_tags ++ [project_tag])%list)).
  rewrite fold_left_append. unfold log_event. simpl.
  rewrite <- !app_assoc. reflexivity.
Qed.

(** ** Names of parameters and the mappings read from them *)

Lemma split_nonempty sep s : split sep s <> [].
Proof.
  destruct s as [|a s]; simpl; [discriminate|].
  destruct (Ascii.eqb a sep); [discriminate|].
  destruct (split sep s); discriminate.
Qed.

Lemma last_item_cons x xs : xs <> [] -> last_item (x :: xs) = last_item xs.
Proof. unfold last_item. destruct xs; [congruence | reflexivity]. Qed.

Lemma split_no_separator sep s :
  all_chars (fun a => negb (Ascii.eqb a sep)) s = true -> split sep s = [s].
Proof.
  induction s as [|a s IH]; simpl; [reflexivity|].
  intros H. apply andb_prop in H as [Ha Hs].
  apply negb_true_iff in Ha. rewrite Ha, (IH Hs). reflexivity.
Qed.

Lemma split_separator_tail sep p s :
  exists h t, split sep (p ++ String sep s) = h :: t /\ t <> []
              /\ last_item (h :: t) = last_item (split sep s).
Proof.
  induction p as [|a p (h & t & Heq & Hne & Hlast)]; simpl.
  - rewrite Ascii.eqb_refl. exists "", (split sep s). repeat split.
    + apply split_nonempty.
    + apply last_item_cons, split_nonempty.
  - destruct (Ascii.eqb a sep).
    + exists "", (split sep (p ++ String sep s)). repeat split.
      * apply split_nonempty.
      * rewrite last_item_cons by apply split_nonempty. rewrite Heq. exact Hlast.
    + rewrite Heq. exists (String a h), t. repeat split; [exact Hne|].
      rewrite last_item_cons by exact Hne.
      rewrite last_item_cons in Hlast by exact Hne. exact Hlast.
Qed.

(** X5. A parameter named [path/key], where [key] holds no slash, is
    filed under [key], whatever the path is. *)
Theorem parameter_key_of_path path key value :
  no_slash key = true ->
  parameter_key {| Name := path ++ "/" ++ key; Value := value |} = key.
Proof.
  intros Hkey. unfold parameter_key. simpl.
  destruct (split_separator_tail "/"%char path key) as (h & t & Heq & _ & Hlast).
  change ("/" ++ key) with (String "/"%char key).
  rewrite Heq, Hlast, (split_no_separator _ _ Hkey). reflexivity.
Qed.

Lemma string_mapping_snoc response param :
  string_mapping (response ++ [param])
  = <[parameter_key param := Value param]> (string_mapping response).
Proof. unfold string_mapping. rewrite fold_left_app. reflexivity. Qed.

(** X6. The mapping read from a response holds a key exactly when a
    parameter of the response is filed under it, and its value is the
    value of the last such parameter: a later parameter overwrites an
    earlier one with the same key. *)
Theorem string_mapping_last_wins response key :
  (is_Some (string_mapping response !! key)
   <-> exists param, In param response /\ parameter_key param = key)
  /\ (forall before param after,
        response = (before ++ param :: after)%list ->
        parameter_key param = key ->
        Forall (fun later => parameter_key later <> key) after ->
        string_mapping response !! key = Some (Value param)).
Proof.
  split.
  - induction response as [|param response IH] using rev_ind.
    + unfold string_mapping. simpl. rewrite lookup_empty. split.
      * intros [? ?]. discriminate.
      * intros (? & [] & _).
    + rewrite string_mapping_snoc.
      destruct (decide (parameter_key param = key)) as [<-|Hne].
      * rewrite lookup_insert_eq. split; [|eauto].
        intros _. exists param. split; [apply in_or_app; right; left|]; reflexivity.
      * rewrite lookup_insert_ne by exact Hne. rewrite IH. split.
        -- intros (q & Hin & Hq). exists q. split; [apply in_or_app; left|]; assumption.
        -- intros (q & Hin & Hq). apply in_app_or in Hin as [Hin | [<- | []]].
           ++ eauto.
           ++ contradiction.
  - intros before param after -> Hkey Hafter.
    induction after as [|later after IH] using rev_ind.
    + rewrite string_mapping_snoc, <- Hkey. apply lookup_insert_eq.
    + apply Forall_app in Hafter as [Hafter Hlater].
      inversion Hlater as [|? ? Hne _]; subst.
      change (before ++ param :: after ++ [later])%list
        with (before ++ (param :: after) ++ [later])%list.
      rewrite app_assoc, string_mapping_snoc.
      rewrite lookup_insert_ne by exact Hne. apply IH. exact Hafter.
Qed.

Lemma float_mapping_stops {float} (fos : string -> option float) before bad after d d' :
  float_mapping fos before d = (d', None) ->
  fos (Value bad) = None ->
  float_mapping fos (before ++ bad :: after) d =
  (d', Some (float_error (Value bad))).
Proof.
  revert d. induction before as [|param before IH]; intros d; simpl.
  - intros H Hbad. inversion H. rewrite Hbad. reflexivity.
  - destruct (fos (Value param)); [apply IH | discriminate].
Qed.

(** X7. When a value of the validation thresholds does not parse as a
    float, the read stops there: the values before it stay in the
    mapping, those after it are not read, the [ValueError] is caught and
    printed, its text ending in the [repr] of the value, and the read
    returns normally. *)
Theorem thresholds_read_stops_at_bad_value {float} (fos : string -> option float)
    w ssm_client r before bad after d :
  raises w (ssm_get_parameters_by_path THRESHOLD_PATH) = None ->
  ssm_parameters w THRESHOLD_PATH = (before ++ bad :: after)%list ->
  float_mapping fos before ∅ = (d, None) ->
  fos (Value bad) = None ->
  read_model_validation_thresholds fos w ssm_client r =
  (Ok d,
   {| stdout := (stdout r ++
        [("An error occurred reading the model validation thresholds: "
          ++ "could not convert string to float: " ++ py_repr (Value bad))%string])%list;
      trace := (trace r ++ [succeeded (ssm_get_parameters_by_path THRESHOLD_PATH)])%list |}).
Proof.
  intros Hcall Hresponse Hbefore Hbad.
  rewrite read_model_validation_thresholds_run.
  unfold validation_thresholds, after_validation_thresholds, thresholds_failure.
  rewrite Hcall, Hresponse, (float_mapping_stops fos _ _ _ _ _ Hbefore Hbad).
  reflexivity.
Qed.

(** ** A build that returns *)

Lemma get_session_Ok w region default_bucket r session r' :
  get_session w region default_bucket r = (Ok session, r') ->
  Forall (fun c => raises w c = None) (session_calls region default_bucket)
  /\ r' = {| stdout := stdout r;
             trace := (trace r
                       ++ List.map succeeded (session_calls region default_bucket))%list |}.
Proof.
  unfold get_session, new_boto_session, client. intros H.
  repeat invert_step H. apply call_Ok in H as (? & -> & ->). invert_leaves.
  split; [repeat constructor; assumption|].
  unfold log_event. simpl. rewrite <- !app_assoc. reflexivity.
Qed.

Lemma get_pipeline_session_Ok w region default_bucket r session r' :
  get_pipeline_session w region default_bucket r = (Ok session, r') ->
  Forall (fun c => raises w c = None) (pipeline_session_calls region default_bucket)
  /\ session = {| ps_boto_session := {| region_name := region |};
                  ps_sagemaker_client :=
                    {| client_region := Some region; client_service := "sagemaker" |};
                  ps_default_bucket := default_bucket |}
  /\ r' = {| stdout := stdout r;
             trace := (trace r
                       ++ List.map succeeded
                            (pipeline_session_calls region default_bucket))%list |}.
Proof.
  unfold get_pipeline_session, new_boto_session, client. intros H.
  repeat invert_step H. apply call_Ok in H as (? & -> & ->). invert_leaves.
  split; [repeat constructor; assumption|]. split; [reflexivity|].
  unfold log_event. simpl. rewrite <- !app_assoc. reflexivity.
Qed.

Lemma get_session_succeeds w region default_bucket r :
  Forall (fun c => raises w c = None) (session_calls region default_bucket) ->
  get_session w region default_bucket r =
  (Ok {| s_boto_session := {| region_name := region |};
         s_sagemaker_client :=
           {| client_region := Some region; client_service := "sagemaker" |};
         s_sagemaker_runtime_client :=
           {| client_region := Some region; client_service := "sagemaker-runtime" |};
         s_default_bucket := default_bucket |},
   {| stdout := stdout r;
      trace := (trace r
                ++ List.map succeeded (session_calls region default_bucket))%list |}).
Proof.
  intros H. unfold session_calls in H.
  repeat match goal with
  | Hf : Forall _ (_ :: _) |- _ => inversion Hf; subst; clear Hf
  end.
  unfold get_session, new_boto_session, client.
  repeat (lazy beta; eapply run_bind; [apply call_None; eassumption|]).
  rewrite call_None by assumption.
  unfold log_event. simpl. rewrite <- !app_assoc. reflexivity.
Qed.

Lemma get_pipeline_session_succeeds w region default_bucket r :
  Forall (fun c => raises w c = None) (pipeline_session_calls region default_bucket) ->
  get_pipeline_session w region default_bucket r =
  (Ok {| ps_boto_session := {| region_name := region |};
         ps_sagemaker_client :=
           {| client_region := Some region; client_service := "sagemaker" |};
         ps_default_bucket := default_bucket |},
   {| stdout := stdout r;
      trace := (trace r
                ++ List.map succeeded
                     (pipeline_session_calls region default_bucket))%list |}).
Proof.
  intros H. unfold pipeline_session_calls in H.
  repeat match goal with
  | Hf : Forall _ (_ :: _) |- _ => inversion Hf; subst; clear Hf
  end.
  unfold get_pipeline_session, new_boto_session, client.
  repeat (lazy beta; eapply run_bind; [apply call_None; eassumption|]).
  rewrite call_None by assumption.
  unfold log_event. simpl. rewrite <- !app_assoc. reflexivity.
Qed.

Lemma read_model_target_parameters_Some w ssm_client r e :
  raises w (ssm_get_parameters_by_path TARGET_PATH) = Some e ->
  read_model_target_parameters w ssm_client r =
  (Ok ∅, after_read TARGET_PATH
           "An error occurred reading the model target parameters: " (Some e) r).
Proof. intros H. rewrite read_model_target_parameters_run, H. reflexivity. Qed.

(** Uses what the inversion of a returned build leaves about the
    sessions, the role and the three reads. *)
Ltac invert_reads :=
  repeat match goal with
  | Hs : get_session _ _ _ _ = (Ok _, _) |- _ =>
      apply get_session_Ok in Hs as (? & ->)
  | Hs : get_pipeline_session _ _ _ _ = (Ok _, _) |- _ =>
      apply get_pipeline_session_Ok in Hs as (? & -> & ->)
  | Hr : ret _ _ = (Ok _, _) |- _ => unfold ret in Hr; inversion Hr; subst; clear Hr
  | Hr : read_model_target_parameters _ _ _ = _ |- _ =>
      rewrite read_model_target_parameters_run in Hr
  | Hr : read_model_training_hyperparameters _ _ _ = _ |- _ =>
      rewrite read_model_training_hyperparameters_run in Hr
  | Hr : read_model_validation_thresholds _ _ _ _ = _ |- _ =>
      rewrite read_model_validation_thresholds_run in Hr; inversion Hr; subst; clear Hr
  end;
  repeat match goal with
  | Hr : match raises ?w ?c with _ => _ end = (Ok _, _) |- _ =>
      let Hc := fresh "Hcall" in
      destruct (raises w c) eqn:Hc; inversion Hr; subst; clear Hr
  end;
  try match goal with
  | Hl : ∅ !! _ = Some _ |- _ => rewrite lookup_empty in Hl; discriminate Hl
  end.

(** Runs [get_pipeline] in the goal on what the context says about the
    world. *)
Ltac build_leaf :=
  first [ apply call_None; assumption
        | apply getitem_Some; eassumption
        | apply get_session_succeeds; assumption
        | apply get_pipeline_session_succeeds; assumption
        | apply read_model_target_parameters_None; assumption
        | apply read_model_target_parameters_Some; eassumption
        | apply read_model_training_hyperparameters_None; assumption
        | apply read_model_training_hyperparameters_Some; eassumption
        | apply read_model_validation_thresholds_run
        | reflexivity ].

Ltac build :=
  unfold get_pipeline;
  lazy beta zeta iota delta [properties output_s3_uri step_name tin_data];
  repeat (lazy beta; eapply run_bind; [ solve [build_leaf] | ]).

(** The same with [Hps]: every call other than a parameter store read
    succeeds. *)
Ltac build_with Hps :=
  unfold get_pipeline;
  lazy beta zeta iota delta [properties output_s3_uri step_name tin_data];
  repeat (lazy beta; eapply run_bind;
          [ solve [ first [ apply call_None; apply Hps; reflexivity
                          | apply get_session_None; exact Hps
                          | apply get_pipeline_session_None; exact Hps
                          | build_leaf ] ] | ]).

Ltac split_calls :=
  repeat match goal with
  | Hf : Forall _ (_ ++ _)%list |- _ => apply Forall_app in Hf as [? ?]
  | Hf : Forall _ (_ :: _) |- _ => inversion Hf; subst; clear Hf
  | Hf : Forall _ [] |- _ => clear Hf
  | Hs : is_Some _ |- _ => destruct Hs
  end.

Section Returned.
Context {float : Type}.
Variable float_of_string : string -> option float.
Variable string_of_float : float -> string.

(** What a returned build leaves behind: the calls it made, the lines it
    printed, the configuration it found. *)
Lemma get_pipeline_Ok_run
    w region role default_bucket project_name project_id group r p r' :
  get_pipeline float_of_string string_of_float w region role default_bucket
    project_name project_id group r = (Ok p, r') ->
  (Forall (fun c => raises w c = None)
     (pipeline_calls w region role default_bucket project_name project_id)
   /\ Forall (fun key => is_Some (string_mapping (ssm_parameters w TARGET_PATH) !! key))
        TARGET_KEYS
   /\ Forall (fun key =>
                is_Some (string_mapping (ssm_parameters w HYPERPARAMETERS_PATH) !! key))
        HYPERPARAMETER_KEYS)
  /\ trace r' =
     (trace r ++ List.map succeeded
                   (pipeline_calls w region role default_bucket project_name project_id))%list
  /\ exists threshold,
       validation_thresholds float_of_string w !! "mean_quantile_loss" = Some threshold
       /\ stdout r' =
          (stdout r ++
           match thresholds_failure float_of_string w with
           | Some e =>
               [("An error occurred reading the model validation thresholds: "
                 ++ exn_str e)%string]
           | None => []
           end ++
           [("model validation threshold used is : mean_quantile_loss <= "
             ++ string_of_float threshold)%string])%list.
Proof.
  intros H. destruct role; invert_get_pipeline H; invert_reads.
  all: assert (Hthreshold : raises w (ssm_get_parameters_by_path THRESHOLD_PATH) = None)
    by (destruct (raises w (ssm_get_parameters_by_path THRESHOLD_PATH)) eqn:Hc;
        [exfalso|reflexivity];
        match goal with
        | Hl : validation_thresholds _ _ !! _ = Some _ |- _ =>
            unfold validation_thresholds in Hl; rewrite Hc, lookup_empty in Hl;
            discriminate Hl
        end).
  all: unfold pipeline_calls, calls_before_reads, job_calls, session_calls,
    pipeline_session_calls in *.
  all: repeat match goal with
       | Hf : Forall _ (_ :: _) |- _ => inversion Hf; subst; clear Hf
       end.
  all: split;
    [split; [destruct project_name, project_id; simpl|split]; repeat constructor; eauto|].
  all: split;
    [ lazy beta iota delta [log_event after_read after_validation_thresholds trace stdout];
      rewrite Hthreshold, <- !app_assoc;
      destruct project_name, project_id; reflexivity | ].
  all: match goal with
       | H1 : validation_thresholds _ _ !! _ = Some ?a,
         H2 : validation_thresholds _ _ !! _ = Some ?b |- _ =>
           rewrite H1 in H2; injection H2 as <-
       end.
  all: eexists; split; [eassumption|].
  all: lazy beta iota delta [log_event after_read after_validation_thresholds trace stdout].
  all: destruct (thresholds_failure float_of_string w);
    rewrite <- ?app_assoc; reflexivity.
Qed.


(** X8. [get_pipeline] returns a pipeline exactly when every external
    call of its sequence succeeds, the target parameters hold [freq],
    [target_col] and [prediction_length], the training hyperparameters
    hold [epochs], [early_stopping_patience], [mini_batch_size] and
    [learning_rate], and the validation thresholds read hold
    [mean_quantile_loss]. *)
Theorem get_pipeline_returns_iff
    w region role default_bucket project_name project_id group r :
  (exists p r',
      get_pipeline float_of_string string_of_float w region role default_bucket
        project_name project_id group r = (Ok p, r'))
  <->
  Forall (fun c => raises w c = None)
    (pipeline_calls w region role default_bucket project_name project_id)
  /\ Forall (fun key => is_Some (string_mapping (ssm_parameters w TARGET_PATH) !! key))
       TARGET_KEYS
  /\ Forall (fun key =>
               is_Some (string_mapping (ssm_parameters w HYPERPARAMETERS_PATH) !! key))
       HYPERPARAMETER_KEYS
  /\ is_Some (validation_thresholds float_of_string w !! "mean_quantile_loss").
Proof.
  split.
  - intros (p & r' & H).
    apply get_pipeline_Ok_run in H as ((Hc & Ht & Hh) & _ & threshold & Hthreshold & _).
    eauto.
  - intros (Hcalls & Htarget & Hhyper & Hthreshold).
    unfold pipeline_calls, calls_before_reads, job_calls, TARGET_KEYS,
      HYPERPARAMETER_KEYS in *.
    destruct role; split_calls; eexists _, _; build; apply call_None; assumption.
Qed.

(** X9. A call of [get_pipeline] that returns a pipeline has made the
    calls of its sequence, in order and once each, and all succeeded; it
    has printed the threshold it uses as its last line, after at most
    one other line, the report of a threshold value that did not
    parse. *)
Theorem returned_pipeline_run
    w region role default_bucket project_name project_id group r p r' :
  get_pipeline float_of_string string_of_float w region role default_bucket
    project_name project_id group r = (Ok p, r') ->
  trace r' =
    (trace r ++ List.map succeeded
                  (pipeline_calls w region role default_bucket project_name project_id))%list
  /\ exists threshold,
       validation_thresholds float_of_string w !! "mean_quantile_loss" = Some threshold
       /\ stdout r' =
          (stdout r ++
           match thresholds_failure float_of_string w with
           | Some e =>
               [("An error occurred reading the model validation thresholds: "
                 ++ exn_str e)%string]
           | None => []
           end ++
           [("model validation threshold used is : mean_quantile_loss <= "
             ++ string_of_float threshold)%string])%list.
Proof.
  intros H. apply get_pipeline_Ok_run in H as (_ & Htrace & Hstdout).
  split; assumption.
Qed.

End Returned.

(** ** What the returned pipeline carries *)

Section Carried.
Context {float : Type}.
Variable float_of_string : string -> option float.
Variable string_of_float : float -> string.

(** X10. Every job of the returned pipeline runs under one role: the
    role the caller gave, or, when none was given, the execution role
    resolved from the session. *)
Theorem pipeline_roles_uniform
    w region role default_bucket project_name project_id group r p r' :
  get_pipeline float_of_string string_of_float w region role default_bucket
    project_name project_id group r = (Ok p, r') ->
  Forall (fun job_role => job_role = default (execution_role_value w) role)
    (flat_map step_roles (p_steps p))
  /\ length (flat_map step_roles (p_steps p)) = 6%nat.
Proof.
  intros H. invert_get_pipeline H.
  match goal with
  | Hr : match role with _ => _ end _ = (Ok _, _) |- _ =>
      destruct role;
      [ unfold ret in Hr; inversion Hr; subst; clear Hr
      | apply call_Ok in Hr as (_ & -> & _) ]
  end.
  all: split; [repeat constructor | reflexivity].
Qed.

(** X11. The returned pipeline and every one of its jobs share one
    pipeline session, made for the region of the call and the default
    bucket of the session. *)
Theorem pipeline_session_shared
    w region role default_bucket project_name project_id group r p r' :
  get_pipeline float_of_string string_of_float w region role default_bucket
    project_name project_id group r = (Ok p, r') ->
  p_sagemaker_session p =
    {| ps_boto_session := {| region_name := region |};
       ps_sagemaker_client :=
         {| client_region := Some region; client_service := "sagemaker" |};
       ps_default_bucket := default_bucket_value w default_bucket |}
  /\ Forall (fun session => session = p_sagemaker_session p)
       (flat_map step_sessions (p_steps p))
  /\ length (flat_map step_sessions (p_steps p)) = 7%nat.
Proof.
  intros H. invert_get_pipeline H.
  match goal with
  | Hs : get_pipeline_session _ _ _ _ = (Ok _, _) |- _ =>
      apply get_pipeline_session_Ok in Hs as (_ & -> & _)
  end.
  split; [reflexivity|]. split; [repeat constructor | reflexivity].
Qed.

(** X12. The training job gets exactly eight hyperparameters: the four
    read from the training hyperparameters, [time_freq] from the target
    parameter [freq], [context_length] and [prediction_length] both from
    the target parameter [prediction_length], and the fixed likelihood;
    any other key of the parameter store is not passed on. *)
Theorem training_hyperparameters_passed
    w region role default_bucket project_name project_id group r p r' :
  get_pipeline float_of_string string_of_float w region role default_bucket
    project_name project_id group r = (Ok p, r') ->
  Forall (fun est =>
            dom (e_hyperparameters est) =
              ({[ "time_freq"; "epochs"; "early_stopping_patience"; "mini_batch_size";
                  "learning_rate"; "context_length"; "prediction_length";
                  "likelihood" ]} : gset string)
            /\ e_hyperparameters est !! "time_freq"
               = string_mapping (ssm_parameters w TARGET_PATH) !! "freq"
            /\ e_hyperparameters est !! "context_length"
               = string_mapping (ssm_parameters w TARGET_PATH) !! "prediction_length"
            /\ e_hyperparameters est !! "prediction_length"
               = string_mapping (ssm_parameters w TARGET_PATH) !! "prediction_length"
            /\ e_hyperparameters est !! "likelihood" = Some "negative-binomial"
            /\ Forall (fun key =>
                         e_hyperparameters est !! key
                         = string_mapping (ssm_parameters w HYPERPARAMETERS_PATH) !! key)
                 HYPERPARAMETER_KEYS)
    (training_jobs p).
Proof.
  intros H. invert_get_pipeline H. invert_reads.
  repeat match goal with
  | H1 : ?l = Some ?a, H2 : ?l = Some ?b |- _ => rewrite H1 in H2; injection H2 as <-
  end.
  apply Forall_cons; split; [|apply Forall_nil].
  unfold HYPERPARAMETER_KEYS.
  repeat match goal with
  | |- _ /\ _ => split
  | |- Forall _ (_ :: _) => apply Forall_cons; split
  | |- Forall _ [] => apply Forall_nil
  end.
  all: repeat match goal with
       | Hl : string_mapping _ !! _ = Some _ |- _ => rewrite Hl; clear Hl
       end.
  all: vm_compute; reflexivity.
Qed.

(** X13. The preprocessing job is started with the region of the call,
    the feature group name read from the parameter store, the default
    bucket of the session, the name of the pipeline as base job prefix
    and the three target parameters; the evaluation job gets the same
    target column; no other step has arguments. *)
Theorem processing_arguments_passed
    w region role default_bucket project_name project_id group r p r' :
  get_pipeline float_of_string string_of_float w region role default_bucket
    project_name project_id group r = (Ok p, r') ->
  exists freq target_col prediction_length,
    string_mapping (ssm_parameters w TARGET_PATH) !! "freq" = Some freq
    /\ string_mapping (ssm_parameters w TARGET_PATH) !! "target_col" = Some target_col
    /\ string_mapping (ssm_parameters w TARGET_PATH) !! "prediction_length"
       = Some prediction_length
    /\ List.map step_arguments (p_steps p) =
       [ [ "--region"; region;
           "--feature-group-name"; ssm_parameter_value w FEATURE_GROUP_NAME;
           "--artifacts-bucket"; default_bucket_value w default_bucket;
           "--base-job-prefix"; p_name p;
           "--freq"; freq;
           "--target-col"; target_col;
           "--prediction-length"; prediction_length ];
         []; []; [];
         [ "--target-col"; target_col ];
         []; [] ].
Proof.
  intros H. invert_get_pipeline H. invert_reads.
  repeat match goal with
  | H1 : ?l = Some ?a, H2 : ?l = Some ?b |- _ => rewrite H1 in H2; injection H2 as <-
  end.
  eexists _, _, _.
  split; [eassumption|]. split; [eassumption|]. split; [eassumption|]. reflexivity.
Qed.

(** X14. The training job, the batch transform and the model quality
    check write below the default bucket of the session and the name of
    the pipeline: the first two to fixed paths, the quality check to a
    path that also holds the id of the pipeline execution. *)
Theorem output_locations
    w region role default_bucket project_name project_id group r p r' :
  get_pipeline float_of_string string_of_float w region role default_bucket
    project_name project_id group r = (Ok p, r') ->
  List.map e_output_path (training_jobs p) =
    [ "s3://" ++ default_bucket_value w default_bucket ++ "/" ++ p_name p
      ++ "/model_training/output" ]
  /\ List.map t_output_path (transform_jobs p) =
    [ "s3://" ++ default_bucket_value w default_bucket ++ "/" ++ p_name p
      ++ "/batch_transform/output" ]
  /\ List.map qc_output_s3_uri (quality_checks p) =
    [ Join "/" [ Str "s3:/"; Str (default_bucket_value w default_bucket);
                 Str (p_name p); PIPELINE_EXECUTION_ID; Str "modelqualitycheck" ] ].
Proof.
  intros H. invert_get_pipeline H.
  split; [|split]; reflexivity.
Qed.

(** X15. In the returned pipeline every reference to an output of a
    processing step names an output that step declares, and the report
    read by the condition is a property file of EvaluateModel written to
    an output EvaluateModel declares. *)
Theorem references_resolve
    w region role default_bucket project_name project_id group r p r' :
  get_pipeline float_of_string string_of_float w region role default_bucket
    project_name project_id group r = (Ok p, r') ->
  forallb (resolves (all_steps p)) (flat_map step_vars (all_steps p)) = true
  /\ length (flat_map step_vars (all_steps p)) = 20%nat.
Proof.
  intros H. invert_get_pipeline H.
  split; lazy; reflexivity.
Qed.

End Carried.

(** ** What the builder never calls, and where a missing mapping shows *)

Lemma traces_ret {A} P (a : A) : traces P (ret a).
Proof. intros r. exists []. split; [simpl; rewrite app_nil_r; reflexivity | constructor]. Qed.

Lemma traces_raise {A} P (e : exn) : traces P (@raise A e).
Proof. intros r. exists []. split; [simpl; rewrite app_nil_r; reflexivity | constructor]. Qed.

Lemma traces_print P line : traces P (print line).
Proof. intros r. exists []. split; [simpl; rewrite app_nil_r; reflexivity | constructor]. Qed.

Lemma traces_getitem {V} P (d : gmap string V) key : traces P (getitem d key).
Proof.
  unfold getitem. destruct (d !! key); [apply traces_ret | apply traces_raise].
Qed.

Lemma traces_call {A} (P : Event -> Prop) w c (v : A) :
  (forall outcome, P {| ev_call := c; ev_raised := outcome |}) -> traces P (call w c v).
Proof.
  intros HP r. unfold call.
  destruct (raises w c) as [e|];
    eexists [_]; (split; [reflexivity | repeat constructor; apply HP]).
Qed.

Lemma traces_bind {A B} P (m : M A) (k : A -> M B) :
  traces P m -> (forall a, traces P (k a)) -> traces P (bind m k).
Proof.
  intros Hm Hk r. unfold bind.
  destruct (Hm r) as (ev1 & Ht1 & Hp1).
  destruct (m r) as [[a|e] r1]; simpl in *.
  - destruct (Hk a r1) as (ev2 & Ht2 & Hp2).
    exists (ev1 ++ ev2)%list. split.
    + rewrite Ht2, Ht1, app_assoc. reflexivity.
    + apply Forall_app. split; assumption.
  - exists ev1. split; assumption.
Qed.

Lemma traces_read_model_target_parameters P w c :
  (forall outcome,
      P {| ev_call := ssm_get_parameters_by_path TARGET_PATH; ev_raised := outcome |}) ->
  traces P (read_model_target_parameters w c).
Proof.
  intros HP r. rewrite read_model_target_parameters_run.
  destruct (raises w (ssm_get_parameters_by_path TARGET_PATH));
    eexists [_]; (split; [reflexivity | repeat constructor; apply HP]).
Qed.

Lemma traces_read_model_training_hyperparameters P w c :
  (forall outcome,
      P {| ev_call := ssm_get_parameters_by_path HYPERPARAMETERS_PATH;
           ev_raised := outcome |}) ->
  traces P (read_model_training_hyperparameters w c).
Proof.
  intros HP r. rewrite read_model_training_hyperparameters_run.
  destruct (raises w (ssm_get_parameters_by_path HYPERPARAMETERS_PATH));
    eexists [_]; (split; [reflexivity | repeat constructor; apply HP]).
Qed.

Lemma traces_read_model_validation_thresholds {float} (fos : string -> option float) P w c :
  (forall outcome,
      P {| ev_call := ssm_get_parameters_by_path THRESHOLD_PATH; ev_raised := outcome |}) ->
  traces P (read_model_validation_thresholds fos w c).
Proof.
  intros HP r. rewrite read_model_validation_thresholds_run.
  eexists [_]. split; [reflexivity | repeat constructor; apply HP].
Qed.

Ltac trace_leaf :=
  first [ apply traces_ret
        | apply traces_raise
        | apply traces_print
        | apply traces_getitem
        | apply traces_call; intros; reflexivity
        | apply traces_read_model_target_parameters; intros; reflexivity
        | apply traces_read_model_training_hyperparameters; intros; reflexivity
        | apply traces_read_model_validation_thresholds; intros; reflexivity ].

Ltac trace_through :=
  repeat (lazy beta; first [ solve [trace_leaf] | apply traces_bind; [ | intros ? ] ]).

Section Failing.
Context {float : Type}.
Variable float_of_string : string -> option float.
Variable string_of_float : float -> string.

(** X16. [get_pipeline] never looks up the project registry: whatever
    happens, no call it makes describes a project or lists tags. *)
Theorem get_pipeline_makes_no_tag_lookup
    w region role default_bucket project_name project_id group r :
  Forall no_tag_lookup
    (events_of (get_pipeline float_of_string string_of_float w region role default_bucket
                  project_name project_id group) r).
Proof.
  assert (Ht : traces no_tag_lookup
                 (get_pipeline float_of_string string_of_float w region role default_bucket
                    project_name project_id group)).
  { unfold get_pipeline, get_session, get_pipeline_session, new_boto_session, client.
    lazy beta zeta iota delta [properties output_s3_uri step_name tin_data].
    destruct role; trace_through. }
  destruct (Ht r) as (events & Htrace & Hall).
  unfold events_of. rewrite Htrace, drop_app_length. exact Hall.
Qed.

(** X17. When the read of the model target parameters fails and the
    calls made before the jobs are assembled succeed, [get_pipeline]
    raises the [KeyError] of [freq]: the failure is printed, the two
    other mappings are still read and the processing image is still
    looked up, and the build stops where the arguments of the
    preprocessing job are put together, before any job is assembled. *)
Theorem target_parameters_failure
    w e region role default_bucket project_name project_id group r :
  raises w (ssm_get_parameters_by_path TARGET_PATH) = Some e ->
  Forall (fun c => raises w c = None)
    (calls_before_reads w region role default_bucket
     ++ [get_base_python_image_uri region "310"]) ->
  get_pipeline float_of_string string_of_float w region role default_bucket
    project_name project_id group r =
  (Raise (KeyError "freq"),
   {| stdout :=
        (stdout r
         ++ [("An error occurred reading the model target parameters: "
              ++ exn_str e)%string]
         ++ printed "An error occurred reading the model training hyperparameters: "
              (raises w (ssm_get_parameters_by_path HYPERPARAMETERS_PATH))
         ++ printed "An error occurred reading the model validation thresholds: "
              (thresholds_failure float_of_string w))%list;
      trace :=
        (trace r
         ++ List.map succeeded (calls_before_reads w region role default_bucket)
         ++ [ {| ev_call := ssm_get_parameters_by_path TARGET_PATH; ev_raised := Some e |};
              {| ev_call := ssm_get_parameters_by_path HYPERPARAMETERS_PATH;
                 ev_raised := raises w (ssm_get_parameters_by_path HYPERPARAMETERS_PATH) |};
              {| ev_call := ssm_get_parameters_by_path THRESHOLD_PATH;
                 ev_raised := raises w (ssm_get_parameters_by_path THRESHOLD_PATH) |};
              succeeded (get_base_python_image_uri region "310") ])%list |}).
Proof.
  intros Hfail Hcalls. unfold calls_before_reads in *.
  destruct role;
    destruct (raises w (ssm_get_parameters_by_path HYPERPARAMETERS_PATH)) eqn:Hhyper;
    split_calls.
  all: eapply result_at;
    [ build; apply run_bind_raise; apply getitem_None; apply lookup_empty
    | apply run_eq;
      lazy beta iota delta [log_event after_read after_validation_thresholds trace stdout
                              printed] ].
  all: try (destruct (thresholds_failure float_of_string w);
            rewrite <- ?app_assoc; reflexivity).
  all: rewrite <- !app_assoc; reflexivity.
Qed.

(** X18. When the read of the validation thresholds fails and everything
    else is in order, the missing threshold only shows at the end: every
    job is assembled first, then [get_pipeline] raises the [KeyError] of
    [mean_quantile_loss], without constructing the pipeline. *)
Theorem validation_thresholds_failure
    w e region role default_bucket project_name project_id group r :
  raises w (ssm_get_parameters_by_path THRESHOLD_PATH) = Some e ->
  Forall (fun c => raises w c = None)
    (calls_before_reads w region role default_bucket
     ++ [ ssm_get_parameters_by_path TARGET_PATH;
          ssm_get_parameters_by_path HYPERPARAMETERS_PATH ]
     ++ job_calls region) ->
  Forall (fun key => is_Some (string_mapping (ssm_parameters w TARGET_PATH) !! key))
    TARGET_KEYS ->
  Forall (fun key => is_Some (string_mapping (ssm_parameters w HYPERPARAMETERS_PATH) !! key))
    HYPERPARAMETER_KEYS ->
  get_pipeline float_of_string string_of_float w region role default_bucket
    project_name project_id group r =
  (Raise (KeyError "mean_quantile_loss"),
   {| stdout :=
        (stdout r
         ++ [("An error occurred reading the model validation thresholds: "
              ++ exn_str e)%string])%list;
      trace :=
        (trace r
         ++ List.map succeeded (calls_before_reads w region role default_bucket)
         ++ [ succeeded (ssm_get_parameters_by_path TARGET_PATH);
              succeeded (ssm_get_parameters_by_path HYPERPARAMETERS_PATH);
              {| ev_call := ssm_get_parameters_by_path THRESHOLD_PATH;
                 ev_raised := Some e |} ]
         ++ List.map succeeded (job_calls region))%list |}).
Proof.
  intros Hfail Hcalls Htarget Hhyper.
  unfold calls_before_reads, job_calls, TARGET_KEYS, HYPERPARAMETER_KEYS in *.
  destruct role; split_calls.
  all: eapply result_at;
    [ build; apply run_bind_raise; apply getitem_None;
      unfold validation_thresholds; rewrite Hfail; apply lookup_empty
    | apply run_eq;
      lazy beta iota delta [log_event after_read after_validation_thresholds trace stdout
                              thresholds_failure];
      rewrite Hfail, <- ?app_assoc; reflexivity ].
Qed.

End Failing.

(** ** The further properties on the example worlds *)

Lemma custom_tags_appended_in_order_witness :
  get_pipeline_custom_tags (example_world no_failure) example_tags "eu-west-1"
    (Some "forecast") run0
  = (Ok [ {| Key := "team"; TagValue := "forecasting" |};
          {| Key := "sagemaker:project-name"; TagValue := "forecast" |} ],
     {| stdout := [];
        trace := List.map succeeded
                   [ boto3_Session "eu-west-1";
                     session_client "eu-west-1" "sagemaker";
                     sm_describe_project (Some "forecast");
                     sm_list_tags "arn:aws:sagemaker:eu-west-1:000000000000:project/forecast"
                   ] |}).
Proof.
  apply (custom_tags_appended_in_order (example_world no_failure) example_tags
           "eu-west-1" (Some "forecast") run0); reflexivity.
Defined.

Lemma parameter_key_of_path_witness :
  parameter_key {| Name := HYPERPARAMETERS_PATH ++ "/" ++ "learning_rate";
                   Value := "0.001" |} = "learning_rate".
Proof.
  apply (parameter_key_of_path HYPERPARAMETERS_PATH "learning_rate" "0.001").
  reflexivity.
Defined.

Lemma string_mapping_last_wins_witness :
  string_mapping
    [ {| Name := "/a/epochs"; Value := "10" |};
      {| Name := "/b/epochs"; Value := "20" |};
      {| Name := "/a/learning_rate"; Value := "0.1" |} ] !! "epochs" = Some "20".
Proof.
  destruct (string_mapping_last_wins
              [ {| Name := "/a/epochs"; Value := "10" |};
                {| Name := "/b/epochs"; Value := "20" |};
                {| Name := "/a/learning_rate"; Value := "0.1" |} ] "epochs") as [_ H].
  apply (H [ {| Name := "/a/epochs"; Value := "10" |} ]
           {| Name := "/b/epochs"; Value := "20" |}
           [ {| Name := "/a/learning_rate"; Value := "0.1" |} ]).
  - reflexivity.
  - reflexivity.
  - repeat constructor. vm_compute. discriminate.
Defined.

Lemma thresholds_read_stops_at_bad_value_witness :
  read_model_validation_thresholds decimal_of_string bad_threshold_world
    {| client_region := None; client_service := "ssm" |} run0
  = (Ok {[ "mean_quantile_loss" := "0.5" ]},
     {| stdout :=
          [ ("An error occurred reading the model validation thresholds: "
             ++ "could not convert string to float: "
             ++ dquote ++ "it's high" ++ dquote)%string ];
        trace := [ succeeded (ssm_get_parameters_by_path THRESHOLD_PATH) ] |}).
Proof.
  apply (thresholds_read_stops_at_bad_value decimal_of_string bad_threshold_world
           {| client_region := None; client_service := "ssm" |} run0
           [ {| Name := THRESHOLD_PATH ++ "/mean_quantile_loss"; Value := "0.5" |} ]
           {| Name := THRESHOLD_PATH ++ "/coverage"; Value := "it's high" |}
           [ {| Name := THRESHOLD_PATH ++ "/rmse"; Value := "0.9" |} ]);
    vm_compute; reflexivity.
Defined.

Lemma get_pipeline_returns_iff_witness :
  exists p r',
    get_pipeline decimal_of_string string_of_decimal bad_threshold_world
      "eu-west-1" None None None None "Blockchain" run0 = (Ok p, r').
Proof.
  apply (get_pipeline_returns_iff decimal_of_string string_of_decimal bad_threshold_world
           "eu-west-1" None None None None "Blockchain" run0).
  split; [|split; [|split]].
  - apply Forall_forall. intros c _. reflexivity.
  - repeat constructor; vm_compute; eexists; reflexivity.
  - repeat constructor; vm_compute; eexists; reflexivity.
  - vm_compute. eexists. reflexivity.
Defined.

Lemma returned_pipeline_run_witness :
  exists p r',
    get_pipeline decimal_of_string string_of_decimal bad_threshold_world
      "eu-west-1" (Some "arn:aws:iam::000000000000:role/given") None None None
      "Blockchain" run0 = (Ok p, r')
    /\ length (trace r') = 22%nat
    /\ stdout r' =
       [ ("An error occurred reading the model validation thresholds: "
          ++ "could not convert string to float: "
          ++ dquote ++ "it's high" ++ dquote)%string;
         "model validation threshold used is : mean_quantile_loss <= 0.5" ].
Proof.
  example_pipeline E.
  destruct (returned_pipeline_run _ _ _ _ _ _ _ _ _ _ _ _ E)
    as (Htrace & threshold & Hthreshold & Hstdout).
  split.
  - rewrite Htrace. reflexivity.
  - vm_compute in Hthreshold. injection Hthreshold as <-. rewrite Hstdout. reflexivity.
Defined.

Lemma pipeline_roles_uniform_witness :
  exists p r',
    example_get_pipeline no_failure None None None = (Ok p, r')
    /\ flat_map step_roles (p_steps p)
       = repeat "arn:aws:iam::000000000000:role/pipeline" 6.
Proof.
  example_pipeline E.
  destruct (pipeline_roles_uniform _ _ _ _ _ _ _ _ _ _ _ _ E) as (Hall & Hlen).
  match goal with
  | |- ?roles = _ =>
      destruct roles as [|a [|b [|c [|d [|f [|g [|]]]]]]]; try discriminate Hlen
  end.
  repeat match goal with
  | Hf : Forall _ (_ :: _) |- _ => inversion Hf; subst; clear Hf
  end.
  reflexivity.
Defined.

Lemma pipeline_session_shared_witness :
  exists p r',
    example_get_pipeline no_failure None None None = (Ok p, r')
    /\ ps_default_bucket (p_sagemaker_session p) = "sagemaker-eu-west-1-000000000000"
    /\ Forall (fun session => session = p_sagemaker_session p)
         (flat_map step_sessions (p_steps p)).
Proof.
  example_pipeline E.
  destruct (pipeline_session_shared _ _ _ _ _ _ _ _ _ _ _ _ E) as (Hs & Hall & _).
  split; [rewrite Hs; reflexivity | exact Hall].
Defined.

Lemma training_hyperparameters_passed_witness :
  exists p r',
    example_get_pipeline no_failure None None None = (Ok p, r')
    /\ Forall (fun est =>
                 e_hyperparameters est !! "context_length" = Some "24"
                 /\ e_hyperparameters est !! "prediction_length" = Some "24"
                 /\ e_hyperparameters est !! "time_freq" = Some "1H"
                 /\ e_hyperparameters est !! "num_layers" = None)
         (training_jobs p).
Proof.
  example_pipeline E.
  eapply Forall_impl;
    [exact (training_hyperparameters_passed _ _ _ _ _ _ _ _ _ _ _ _ E)|].
  intros est (Hdom & Hf & Hc & Hp & _).
  rewrite Hf, Hc, Hp. repeat split; try (vm_compute; reflexivity).
  apply not_elem_of_dom. rewrite Hdom. vm_compute. intros H. discriminate H.
Defined.

Lemma processing_arguments_passed_witness :
  exists p r',
    example_get_pipeline no_failure None None None = (Ok p, r')
    /\ nth 0 (List.map step_arguments (p_steps p)) [] =
       [ "--region"; "eu-west-1";
         "--feature-group-name"; "blockchain-feature-group";
         "--artifacts-bucket"; "sagemaker-eu-west-1-000000000000";
         "--base-job-prefix"; "blockchain-forecasting-mlops-pipeline";
         "--freq"; "1H";
         "--target-col"; "fee";
         "--prediction-length"; "24" ].
Proof.
  example_pipeline E.
  destruct (processing_arguments_passed _ _ _ _ _ _ _ _ _ _ _ _ E)
    as (freq & target_col & prediction_length & Hf & Ht & Hp & Hargs).
  vm_compute in Hf, Ht, Hp.
  injection Hf as <-. injection Ht as <-. injection Hp as <-.
  rewrite Hargs. simpl. repeat f_equal.
  clear Hargs. vm_compute in E. injection E as <- _. reflexivity.
Defined.

Lemma output_locations_witness :
  exists p r',
    example_get_pipeline no_failure None (Some "forecast") (Some "p-1") = (Ok p, r')
    /\ List.map e_output_path (training_jobs p) =
       [ "s3://sagemaker-eu-west-1-000000000000/forecast-p-1/model_training/output" ]
    /\ List.map t_output_path (transform_jobs p) =
       [ "s3://sagemaker-eu-west-1-000000000000/forecast-p-1/batch_transform/output" ].
Proof.
  example_pipeline E.
  destruct (output_locations _ _ _ _ _ _ _ _ _ _ _ _ E) as (He & Ht & _).
  rewrite He, Ht. clear He Ht.
  vm_compute in E. injection E as <- _. split; reflexivity.
Defined.

Lemma references_resolve_witness :
  exists p r',
    example_get_pipeline no_failure None None None = (Ok p, r')
    /\ forallb (resolves (all_steps p)) (flat_map step_vars (all_steps p)) = true
    /\ resolves (all_steps p)
         (Property "PreprocessData" "ProcessingOutputConfig.Outputs['holdout'].S3Output.S3Uri")
       = false.
Proof.
  example_pipeline E.
  destruct (references_resolve _ _ _ _ _ _ _ _ _ _ _ _ E) as (Hall & _).
  split; [exact Hall|].
  clear Hall. vm_compute in E. injection E as <- _. vm_compute. reflexivity.
Defined.

Lemma target_parameters_failure_witness :
  fst (get_pipeline decimal_of_string string_of_decimal target_failing_world
         "eu-west-1" None None None None "Blockchain" run0) = Raise (KeyError "freq")
  /\ stdout (snd (get_pipeline decimal_of_string string_of_decimal target_failing_world
                    "eu-west-1" None None None None "Blockchain" run0))
     = [ "An error occurred reading the model target parameters: ThrottlingException";
         ("An error occurred reading the model validation thresholds: "
          ++ "could not convert string to float: "
          ++ dquote ++ "it's high" ++ dquote)%string ].
Proof.
  rewrite (target_parameters_failure decimal_of_string string_of_decimal
             target_failing_world throttled "eu-west-1" None None None None
             "Blockchain" run0).
  - split; reflexivity.
  - vm_compute. reflexivity.
  - repeat constructor.
Defined.

Lemma validation_thresholds_failure_witness :
  fst (example_get_pipeline (only (ssm_get_parameters_by_path THRESHOLD_PATH) throttled)
         None None None) = Raise (KeyError "mean_quantile_loss")
  /\ In (succeeded (sdk_call "Model.register"))
        (trace (snd (example_get_pipeline
                       (only (ssm_get_parameters_by_path THRESHOLD_PATH) throttled)
                       None None None))).
Proof.
  unfold example_get_pipeline.
  rewrite (validation_thresholds_failure decimal_of_string string_of_decimal
             (example_world (only (ssm_get_parameters_by_path THRESHOLD_PATH) throttled))
             throttled "eu-west-1" None None None None "Blockchain" run0).
  - split; [reflexivity|]. simpl. auto 30.
  - vm_compute. reflexivity.
  - repeat constructor.
  - repeat constructor; vm_compute; eexists; reflexivity.
  - repeat constructor; vm_compute; eexists; reflexivity.
Defined.
